(** * Offline-first task synchronisation: TaskService, SyncService and the
      batch endpoint of the sync router, embedded as state-passing functions.

    The SQLite tables [tasks] and [sync_queue] are lists of rows in insertion
    order.  [INSERT] appends a row, [UPDATE ... WHERE] rewrites every row the
    predicate selects, [DELETE ... WHERE] drops them, and [db.get] yields the
    first selected row.  Store statements are taken to succeed.

    ISO-8601 text produced by [Date.prototype.toISOString] is represented by
    the millisecond count it denotes (its lexicographic order is the order of
    those counts).  The two sources of fresh data, [uuidv4()] and
    [new Date()], read the n-th element of a stream fixed by the environment;
    the world counts how many elements were consumed. *)

From Stdlib Require Import List String Ascii ZArith Bool Lia Arith.
From Stdlib Require Import Sorting.Sorted Sorting.Permutation.
Import ListNotations.
Open Scope string_scope.
Open Scope list_scope.
Open Scope Z_scope.

(** ** Data model (types.ts is used by the services; the fields below are the
       ones the services read and write) *)

(** A JavaScript [Date]: a millisecond count, or the invalid date whose
    [getTime()] is NaN. *)
Inductive Date : Type :=
| ValidDate (ms : Z)
| InvalidDate.

Inductive SyncStatus : Type := pending | synced | error.

Record Task : Type := mkTask {
  id : string;
  title : string;
  description : string;
  completed : bool;
  created_at : Date;
  updated_at : Date;
  is_deleted : bool;
  sync_status : SyncStatus;
  server_id : option string;
  last_synced_at : option Date
}.

(** [Partial<Task>]: every field may be missing. *)
Record PartialTask : Type := mkPartial {
  p_id : option string;
  p_title : option string;
  p_description : option string;
  p_completed : option bool;
  p_created_at : option Date;
  p_updated_at : option Date;
  p_is_deleted : option bool;
  p_sync_status : option SyncStatus;
  p_server_id : option string;
  p_last_synced_at : option Date
}.

(** The object literal [{ server_id: s }]. *)
Definition serverIdOnly (s : string) : PartialTask :=
  mkPartial None None None None None None None None (Some s) None.

(** A [Task] passed where a [Partial<Task>] is expected. *)
Definition asPartial (t : Task) : PartialTask :=
  mkPartial (Some (id t)) (Some (title t)) (Some (description t))
            (Some (completed t)) (Some (created_at t)) (Some (updated_at t))
            (Some (is_deleted t)) (Some (sync_status t))
            (server_id t) (last_synced_at t).

(** A row of table [tasks]. *)
Record TaskRow : Type := mkTaskRow {
  row_id : string;
  row_title : string;
  row_description : string;
  row_completed : Z;
  row_created_at : Z;
  row_updated_at : Z;
  row_is_deleted : Z;
  row_sync_status : SyncStatus;
  row_server_id : option string;
  row_last_synced_at : option Z
}.

(** A row of table [sync_queue]; [q_data] stands for the JSON text. *)
Record QueueRow : Type := mkQueueRow {
  q_id : string;
  q_task_id : string;
  q_operation : string;
  q_data : PartialTask;
  q_created_at : Z;
  q_retry_count : Z;
  q_error_message : option string
}.

Record SyncQueueItem : Type := mkItem {
  item_id : string;
  task_id : string;
  operation : string;
  data : PartialTask;
  item_created_at : Date;
  retry_count : Z;
  error_message : option string
}.

Record SyncError : Type := mkSyncError {
  err_task_id : string;
  err_operation : string;
  err_error : string;
  err_timestamp : Date
}.

Record SyncResult : Type := mkResult {
  success : bool;
  synced_items : Z;
  failed_items : Z;
  errors : list SyncError
}.

Inductive ItemStatus : Type := StSuccess | StConflict | StError.

(** One entry of [BatchSyncResponse.processed_items]. *)
Record ProcessedItem : Type := mkProcessed {
  client_id : string;
  pi_server_id : string;
  status : ItemStatus;
  resolved_data : option Task;
  pi_error : option string
}.

(** ** The world the services run in *)

Record Env : Type := mkEnv {
  uuid_stream : nat -> string;
  time_stream : nat -> Z
}.

Record World : Type := mkWorld {
  tasks : list TaskRow;
  sync_queue : list QueueRow;
  uuid_calls : nat;
  date_calls : nat;
  posted : list (list SyncQueueItem)
}.

Definition set_tasks (w : World) (ts : list TaskRow) : World :=
  mkWorld ts (sync_queue w) (uuid_calls w) (date_calls w) (posted w).

Definition set_queue (w : World) (qs : list QueueRow) : World :=
  mkWorld (tasks w) qs (uuid_calls w) (date_calls w) (posted w).

(** [uuidv4()] *)
Definition uuidv4 (env : Env) (w : World) : string * World :=
  (uuid_stream env (uuid_calls w),
   mkWorld (tasks w) (sync_queue w) (S (uuid_calls w)) (date_calls w) (posted w)).

(** [new Date()], as the millisecond count read from the clock. *)
Definition newDate (env : Env) (w : World) : Z * World :=
  (time_stream env (date_calls w),
   mkWorld (tasks w) (sync_queue w) (uuid_calls w) (S (date_calls w)) (posted w)).

(** JavaScript truthiness of a string and [s || d]. *)
Definition truthy (s : string) : bool := negb (String.eqb s "").

Definition orElse (o : option string) (d : string) : string :=
  match o with
  | Some s => if truthy s then s else d
  | None => d
  end.

(** ** TaskService (src/services/taskService.ts) *)

Module TaskService.

Definition mapRowToTask (row : TaskRow) : Task :=
  mkTask (row_id row)
         (row_title row)
         (orElse (Some (row_description row)) "")
         (row_completed row =? 1)
         (ValidDate (row_created_at row))
         (ValidDate (row_updated_at row))
         (row_is_deleted row =? 1)
         (row_sync_status row)
         (row_server_id row)
         (match row_last_synced_at row with
          | Some z => Some (ValidDate z)
          | None => None
          end).

Definition addToSyncQueue (env : Env) (taskId : string) (op : string)
    (d : PartialTask) (w : World) : World :=
  let '(qid, w1) := uuidv4 env w in
  let '(createdAt, w2) := newDate env w1 in
  set_queue w2 (sync_queue w2 ++ [mkQueueRow qid taskId op d createdAt 0 None]).

Definition createTask (env : Env) (taskData : PartialTask) (w : World)
    : Task * World :=
  let '(tid, w1) := uuidv4 env w in
  let '(now, w2) := newDate env w1 in
  let task :=
    mkTask tid
           (orElse (p_title taskData) "")
           (orElse (p_description taskData) "")
           false
           (ValidDate now)
           (ValidDate now)
           false
           pending
           None
           None in
  let w3 :=
    set_tasks w2
      (tasks w2 ++
       [mkTaskRow (id task) (title task) (orElse (Some (description task)) "")
                  (if completed task then 1 else 0) now now 0 pending
                  None None]) in
  (task, addToSyncQueue env (id task) "create" (asPartial task) w3).

(** [SELECT * FROM tasks WHERE id = ? AND is_deleted = 0] through [db.get],
    then the [!row || !row.id] guard. *)
Definition getTask (taskId : string) (w : World) : option Task :=
  match find (fun r => String.eqb (row_id r) taskId && (row_is_deleted r =? 0))
             (tasks w) with
  | None => None
  | Some row => if truthy (row_id row) then Some (mapRowToTask row) else None
  end.

Definition applyUpdates (updates : PartialTask) (now : Z) (r : TaskRow)
    : TaskRow :=
  mkTaskRow (row_id r)
            (match p_title updates with Some t => t | None => row_title r end)
            (match p_description updates with
             | Some d => d
             | None => row_description r
             end)
            (match p_completed updates with
             | Some c => if c then 1 else 0
             | None => row_completed r
             end)
            (row_created_at r)
            now
            (row_is_deleted r)
            pending
            (row_server_id r)
            (row_last_synced_at r).

Definition updateTask (env : Env) (taskId : string) (updates : PartialTask)
    (w : World) : option Task * World :=
  match getTask taskId w with
  | None => (None, w)
  | Some _ =>
      let '(now, w1) := newDate env w in
      let w2 :=
        set_tasks w1
          (map (fun r => if String.eqb (row_id r) taskId
                         then applyUpdates updates now r else r)
               (tasks w1)) in
      match getTask taskId w2 with
      | Some updatedTask =>
          (Some updatedTask,
           addToSyncQueue env taskId "update" (asPartial updatedTask) w2)
      | None => (None, w2)
      end
  end.

Definition markDeleted (now : Z) (r : TaskRow) : TaskRow :=
  mkTaskRow (row_id r) (row_title r) (row_description r) (row_completed r)
            (row_created_at r) now 1 pending
            (row_server_id r) (row_last_synced_at r).

Definition deleteTask (env : Env) (taskId : string) (w : World)
    : bool * World :=
  match getTask taskId w with
  | None => (false, w)
  | Some task =>
      let '(now, w1) := newDate env w in
      let w2 :=
        set_tasks w1
          (map (fun r => if String.eqb (row_id r) taskId
                         then markDeleted now r else r)
               (tasks w1)) in
      (true, addToSyncQueue env taskId "delete" (asPartial task) w2)
  end.

(** [ORDER BY created_at DESC]: rows with equal keys keep table order. *)
Fixpoint insert_newest_first (r : TaskRow) (l : list TaskRow) : list TaskRow :=
  match l with
  | [] => [r]
  | h :: t =>
      if row_created_at h <=? row_created_at r then r :: h :: t
      else h :: insert_newest_first r t
  end.

Definition order_newest_first (l : list TaskRow) : list TaskRow :=
  fold_right insert_newest_first [] l.

(** [WHERE is_deleted = 0] *)
Definition isActive (r : TaskRow) : bool := row_is_deleted r =? 0.

Definition getAllTasks (w : World) : list Task :=
  map mapRowToTask (order_newest_first (filter isActive (tasks w))).

(** [WHERE sync_status IN ('pending', 'error') AND is_deleted = 0] *)
Definition needsSync (r : TaskRow) : bool :=
  match row_sync_status r with
  | pending | error => true
  | synced => false
  end && (row_is_deleted r =? 0).

Definition getTasksNeedingSync (w : World) : list Task :=
  map mapRowToTask (filter needsSync (tasks w)).

End TaskService.

(** ** SyncService (src/services/syncService.ts) *)

Record Config : Type := mkConfig {
  batchSize : nat;
  maxRetries : Z
}.

(** The remote endpoint as seen through axios: [GET /health] answers or not,
    and [POST /batch] for the batch starting at queue offset [i] either
    throws an [Error] with the given message or returns the response body. *)
Record Remote : Type := mkRemote {
  reachable : bool;
  post_batch : nat -> list SyncQueueItem -> string + list ProcessedItem
}.

Module SyncService.

(** The constructor's values when [SYNC_BATCH_SIZE] and
    [SYNC_RETRY_ATTEMPTS] are not set. *)
Definition defaultConfig : Config := mkConfig 50 3.

Definition set_success (r : SyncResult) (b : bool) : SyncResult :=
  mkResult b (synced_items r) (failed_items r) (errors r).

Definition incr_synced (r : SyncResult) : SyncResult :=
  mkResult (success r) (synced_items r + 1) (failed_items r) (errors r).

Definition add_failed (r : SyncResult) (n : Z) : SyncResult :=
  mkResult (success r) (synced_items r) (failed_items r + n) (errors r).

Definition push_error (r : SyncResult) (e : SyncError) : SyncResult :=
  mkResult (success r) (synced_items r) (failed_items r) (errors r ++ [e]).

Definition checkConnectivity (remote : Remote) : bool := reachable remote.

(** [ORDER BY created_at ASC]: rows with equal keys keep insertion order. *)
Fixpoint insert_by_created_at (r : QueueRow) (l : list QueueRow)
    : list QueueRow :=
  match l with
  | [] => [r]
  | h :: t =>
      if q_created_at r <=? q_created_at h then r :: h :: t
      else h :: insert_by_created_at r t
  end.

Definition order_by_created_at (l : list QueueRow) : list QueueRow :=
  fold_right insert_by_created_at [] l.

Definition rowToItem (row : QueueRow) : SyncQueueItem :=
  mkItem (q_id row) (q_task_id row) (q_operation row) (q_data row)
         (ValidDate (q_created_at row)) (q_retry_count row)
         (q_error_message row).

Definition getSyncQueueItems (w : World) : list SyncQueueItem :=
  map rowToItem (order_by_created_at (sync_queue w)).

(** [items.slice(i, j)] for [0 <= i <= j]. *)
Definition slice {A : Type} (i j : nat) (l : list A) : list A :=
  firstn (j - i) (skipn i l).

(** The request carries [client_timestamp: new Date()]; the batch is logged
    in [posted]. *)
Definition processBatch (env : Env) (remote : Remote) (i : nat)
    (items : list SyncQueueItem) (w : World)
    : (string + list ProcessedItem) * World :=
  let '(_, w1) := newDate env w in
  (post_batch remote i items,
   mkWorld (tasks w1) (sync_queue w1) (uuid_calls w1) (date_calls w1)
           (posted w1 ++ [items])).

(** [date.getTime()]: [None] is NaN. *)
Definition getTime (d : Date) : option Z :=
  match d with
  | ValidDate ms => Some ms
  | InvalidDate => None
  end.

(** [a > b] on JavaScript numbers: false as soon as one side is NaN. *)
Definition js_gt (a b : option Z) : bool :=
  match a, b with
  | Some x, Some y => y <? x
  | _, _ => false
  end.

Definition resolveConflict (localTask serverTask : Task) : Task :=
  let localTime := getTime (updated_at localTask) in
  let serverTime := getTime (updated_at serverTask) in
  if js_gt localTime serverTime then localTask
  else if js_gt serverTime localTime then serverTask
  else serverTask.

Definition setSyncColumns (st : SyncStatus) (now : Z)
    (serverData : option PartialTask) (r : TaskRow) : TaskRow :=
  mkTaskRow (row_id r) (row_title r) (row_description r) (row_completed r)
            (row_created_at r) (row_updated_at r) (row_is_deleted r)
            st
            (match serverData with
             | Some d =>
                 match p_server_id d with
                 | Some s => if truthy s then Some s else row_server_id r
                 | None => row_server_id r
                 end
             | None => row_server_id r
             end)
            (Some now).

Definition updateSyncStatus (env : Env) (taskId : string) (st : SyncStatus)
    (serverData : option PartialTask) (w : World) : World :=
  let '(now, w1) := newDate env w in
  set_tasks w1
    (map (fun r => if String.eqb (row_id r) taskId
                   then setSyncColumns st now serverData r else r)
         (tasks w1)).

Definition setSyncStatusError (r : TaskRow) : TaskRow :=
  mkTaskRow (row_id r) (row_title r) (row_description r) (row_completed r)
            (row_created_at r) (row_updated_at r) (row_is_deleted r)
            error (row_server_id r) (row_last_synced_at r).

Definition setRetry (n : Z) (msg : string) (q : QueueRow) : QueueRow :=
  mkQueueRow (q_id q) (q_task_id q) (q_operation q) (q_data q)
             (q_created_at q) n (Some msg).

Definition recordRetry (item : SyncQueueItem) (n : Z) (msg : string)
    (w : World) : World :=
  set_queue w
    (map (fun q => if String.eqb (q_id q) (item_id item)
                   then setRetry n msg q else q)
         (sync_queue w)).

Definition handleSyncError (cfg : Config) (item : SyncQueueItem)
    (msg : string) (w : World) : World :=
  let newRetryCount := retry_count item + 1 in
  if maxRetries cfg <=? newRetryCount then
    let w1 :=
      set_tasks w
        (map (fun r => if String.eqb (row_id r) (task_id item)
                       then setSyncStatusError r else r)
             (tasks w)) in
    recordRetry item newRetryCount msg w1
  else
    recordRetry item newRetryCount msg w.

(** [DELETE FROM sync_queue WHERE task_id = ?] *)
Definition removeFromSyncQueue (taskId : string) (w : World) : World :=
  set_queue w
    (filter (fun q => negb (String.eqb (q_task_id q) taskId)) (sync_queue w)).

(** Body of the loop over [batchResponse.processed_items].  The last branch
    is the source's [else]: every status that is neither ['success'] nor
    ['conflict'] lands there. *)
Definition handleProcessed (env : Env) (cfg : Config)
    (batch : list SyncQueueItem) (st : World * SyncResult)
    (processedItem : ProcessedItem) : World * SyncResult :=
  let '(w, result) := st in
  match status processedItem with
  | StSuccess =>
      let w1 :=
        updateSyncStatus env (client_id processedItem) synced
          (Some (serverIdOnly (pi_server_id processedItem))) w in
      let result1 := incr_synced result in
      (removeFromSyncQueue (client_id processedItem) w1, result1)
  | StConflict =>
      match TaskService.getTask (client_id processedItem) w,
            resolved_data processedItem with
      | Some localTask, Some serverTask =>
          let resolved := resolveConflict localTask serverTask in
          let w1 :=
            updateSyncStatus env (client_id processedItem) synced
              (Some (asPartial resolved)) w in
          let result1 := incr_synced result in
          let '(now, w2) := newDate env w1 in
          let result2 :=
            push_error result1
              (mkSyncError (client_id processedItem) "conflict"
                           "Conflict resolved using last-write-wins"
                           (ValidDate now)) in
          (removeFromSyncQueue (client_id processedItem) w2, result2)
      | _, _ => (w, result)
      end
  | StError =>
      let queueItem :=
        find (fun item => String.eqb (task_id item) (client_id processedItem))
             batch in
      let msg := orElse (pi_error processedItem) "Unknown error" in
      let w1 :=
        match queueItem with
        | Some qi => handleSyncError cfg qi msg w
        | None => w
        end in
      let result1 := add_failed result 1 in
      let '(now, w2) := newDate env w1 in
      (w2,
       push_error result1
         (mkSyncError (client_id processedItem)
                      (orElse (option_map operation queueItem) "unknown")
                      msg
                      (ValidDate now)))
  end.

(** Body of the loop over a batch whose request threw. *)
Definition failItem (env : Env) (cfg : Config) (msg : string)
    (st : World * SyncResult) (item : SyncQueueItem) : World * SyncResult :=
  let '(w, result) := st in
  let w1 := handleSyncError cfg item msg w in
  let '(now, w2) := newDate env w1 in
  (w2,
   push_error result
     (mkSyncError (task_id item) (operation item) msg (ValidDate now))).

(** One iteration of [for (let i = 0; ...; i += this.batchSize)]. *)
Definition syncBatch (env : Env) (cfg : Config) (remote : Remote) (i : nat)
    (queueItems : list SyncQueueItem) (st : World * SyncResult)
    : World * SyncResult :=
  let '(w, result) := st in
  let batch := slice i (i + batchSize cfg) queueItems in
  match processBatch env remote i batch w with
  | (inr processed_items, w1) =>
      fold_left (handleProcessed env cfg batch) processed_items (w1, result)
  | (inl msg, w1) =>
      let result1 := set_success result false in
      let result2 := add_failed result1 (Z.of_nat (List.length batch)) in
      fold_left (failItem env cfg msg) batch (w1, result2)
  end.

(** The batch loop.  Every iteration spends one unit of [fuel]; [None] means
    the fuel ran out with [i] still below the queue length. *)
Fixpoint syncLoop (fuel : nat) (env : Env) (cfg : Config) (remote : Remote)
    (i : nat) (queueItems : list SyncQueueItem) (st : World * SyncResult)
    : option (World * SyncResult) :=
  if (i <? List.length queueItems)%nat then
    match fuel with
    | O => None
    | S fuel' =>
        syncLoop fuel' env cfg remote (i + batchSize cfg) queueItems
                 (syncBatch env cfg remote i queueItems st)
    end
  else Some st.

Definition initialResult : SyncResult := mkResult true 0 0 [].

(** [sync()].  The loop gets as much fuel as there are queued items, which is
    enough whenever [batchSize] is positive; with [batchSize = 0] the source
    loop never advances and the result is [None].  Only [processBatch] can
    throw here, and the inner [catch] handles it, so the outer [catch] has no
    counterpart. *)
Definition sync (env : Env) (cfg : Config) (remote : Remote) (w : World)
    : option (World * SyncResult) :=
  let result := initialResult in
  if negb (checkConnectivity remote) then
    let result1 := set_success result false in
    let '(now, w1) := newDate env w in
    Some (w1,
          push_error result1
            (mkSyncError "N/A" "connectivity" "Server is not reachable"
                         (ValidDate now)))
  else
    let queueItems := getSyncQueueItems w in
    if (List.length queueItems =? 0)%nat then Some (w, result)
    else syncLoop (List.length queueItems) env cfg remote 0 queueItems (w, result).

(** The row count of [sync_queue] selected as [count], then [count || 0]. *)
Definition getPendingSyncCount (w : World) : Z :=
  let count := Z.of_nat (List.length (sync_queue w)) in
  if count =? 0 then 0 else count.

(** [MAX(last_synced_at)] over the rows where it is not null. *)
Definition maxLastSynced (rows : list TaskRow) : option Z :=
  fold_right
    (fun r acc =>
       match row_last_synced_at r, acc with
       | Some z, Some m => Some (Z.max z m)
       | Some z, None => Some z
       | None, _ => acc
       end)
    None rows.

Definition getLastSyncTimestamp (w : World) : option Date :=
  match maxLastSynced (tasks w) with
  | Some m => Some (ValidDate m)
  | None => None
  end.

End SyncService.

(** ** The batch endpoint of the sync router ([router.post('/batch', ...)]) *)

Module SyncRouter.

(** Body of [for (const item of items)]: the [switch] on [item.operation]
    and the push onto [processedItems].  The service calls do not throw
    here, so the per-item [catch] has no counterpart. *)
Definition batchItem (env : Env) (st : World * list ProcessedItem)
    (item : SyncQueueItem) : World * list ProcessedItem :=
  let '(w, processedItems) := st in
  if String.eqb (operation item) "create" then
    let '(createdTask, w1) := TaskService.createTask env (data item) w in
    (w1,
     processedItems ++
     [mkProcessed (task_id item) (id createdTask) StSuccess
                  (Some createdTask) None])
  else if String.eqb (operation item) "update" then
    match TaskService.updateTask env (task_id item) (data item) w with
    | (Some updatedTask, w1) =>
        (w1,
         processedItems ++
         [mkProcessed (task_id item)
                      (orElse (server_id updatedTask) (id updatedTask))
                      StSuccess (Some updatedTask) None])
    | (None, w1) =>
        (w1,
         processedItems ++
         [mkProcessed (task_id item) (task_id item) StError None
                      (Some "Task not found")])
    end
  else if String.eqb (operation item) "delete" then
    match TaskService.deleteTask env (task_id item) w with
    | (true, w1) =>
        (w1,
         processedItems ++
         [mkProcessed (task_id item) (task_id item) StSuccess None None])
    | (false, w1) =>
        (w1,
         processedItems ++
         [mkProcessed (task_id item) (task_id item) StError None
                      (Some "Task not found")])
    end
  else
    (w,
     processedItems ++
     [mkProcessed (task_id item) (task_id item) StError None
                  (Some "Unknown operation")]).

Definition postBatch (env : Env) (items : list SyncQueueItem) (w : World)
    : World * list ProcessedItem :=
  fold_left (batchItem env) items (w, []).

End SyncRouter.

(** ** The task router ([createTaskRouter]) *)

(** A field of [req.body] after JSON parsing.  [JsOther] stands for numbers,
    arrays and objects, of which the handlers only observe truthiness and
    that they are neither strings nor booleans. *)
Inductive JsValue : Type :=
| JsUndefined
| JsNull
| JsBool (b : bool)
| JsString (s : string)
| JsOther (isTruthy : bool).

Inductive Body : Type :=
| TaskBody (t : Task)
| TaskListBody (l : list Task)
| ErrorBody (errorText : string) (timestamp : Z) (path : string)
| NoBody.

Record Response : Type := mkResponse {
  statusCode : Z;
  body : Body
}.

Module TaskRouter.

Definition js_truthy (v : JsValue) : bool :=
  match v with
  | JsUndefined | JsNull => false
  | JsBool b => b
  | JsString s => truthy s
  | JsOther t => t
  end.

Definition isUndefined (v : JsValue) : bool :=
  match v with JsUndefined => true | _ => false end.

(** [res.status(code).json({ error, timestamp: new Date().toISOString(),
    path: req.path })] *)
Definition sendError (env : Env) (code : Z) (text path : string) (w : World)
    : Response * World :=
  let '(now, w1) := newDate env w in
  (mkResponse code (ErrorBody text now path), w1).

Section Handlers.

(** [String.prototype.trim], a builtin the handlers call on request text. *)
Variable trim : string -> string.

(** [router.get('/', ...)] *)
Definition listHandler (w : World) : Response * World :=
  (mkResponse 200 (TaskListBody (TaskService.getAllTasks w)), w).

(** [router.get('/:id', ...)] *)
Definition getHandler (env : Env) (taskId path : string) (w : World)
    : Response * World :=
  match TaskService.getTask taskId w with
  | None => sendError env 404 "Task not found" path w
  | Some task => (mkResponse 200 (TaskBody task), w)
  end.

(** [router.post('/', ...)].  A truthy [description] that is not a string
    makes [description.trim()] throw, which the [catch] turns into 500. *)
Definition createHandler (env : Env) (title description : JsValue)
    (path : string) (w : World) : Response * World :=
  match title with
  | JsString s =>
      if negb (truthy s) || String.eqb (trim s) "" then
        sendError env 400 "Title is required and must be a non-empty string"
                  path w
      else if js_truthy description then
        match description with
        | JsString d =>
            let '(task, w1) :=
              TaskService.createTask env
                (mkPartial None (Some (trim s)) (Some (trim d)) None None None
                           None None None None) w in
            (mkResponse 201 (TaskBody task), w1)
        | _ => sendError env 500 "Failed to create task" path w
        end
      else
        let '(task, w1) :=
          TaskService.createTask env
            (mkPartial None (Some (trim s)) (Some "") None None None
                       None None None None) w in
        (mkResponse 201 (TaskBody task), w1)
  | _ =>
      sendError env 400 "Title is required and must be a non-empty string"
                path w
  end.

(** The three validations of [router.put('/:id', ...)], in order. *)
Definition validateUpdate (title description completed : JsValue)
    : option string :=
  if isUndefined title && isUndefined description && isUndefined completed
  then Some "At least one field (title, description, or completed) must be provided"
  else if
    match title with
    | JsUndefined => false
    | JsString s => String.eqb (trim s) ""
    | _ => true
    end
  then Some "Title must be a non-empty string"
  else if
    match completed with
    | JsUndefined | JsBool _ => false
    | _ => true
    end
  then Some "Completed must be a boolean"
  else None.

(** The [updates] object; [None] when [description.trim()] throws. *)
Definition buildUpdates (title description completed : JsValue)
    : option PartialTask :=
  let t := match title with JsString s => Some (trim s) | _ => None end in
  let c := match completed with JsBool b => Some b | _ => None end in
  match description with
  | JsUndefined =>
      Some (mkPartial None t None c None None None None None None)
  | JsString d =>
      Some (mkPartial None t (Some (trim d)) c None None None None None None)
  | _ => None
  end.

(** [router.put('/:id', ...)] *)
Definition updateHandler (env : Env) (taskId : string)
    (title description completed : JsValue) (path : string) (w : World)
    : Response * World :=
  match validateUpdate title description completed with
  | Some text => sendError env 400 text path w
  | None =>
      match buildUpdates title description completed with
      | None => sendError env 500 "Failed to update task" path w
      | Some updates =>
          match TaskService.updateTask env taskId updates w with
          | (Some updatedTask, w1) =>
              (mkResponse 200 (TaskBody updatedTask), w1)
          | (None, w1) => sendError env 404 "Task not found" path w1
          end
      end
  end.

(** [router.delete('/:id', ...)] *)
Definition deleteHandler (env : Env) (taskId path : string) (w : World)
    : Response * World :=
  match TaskService.deleteTask env taskId w with
  | (true, w1) => (mkResponse 204 NoBody, w1)
  | (false, w1) => sendError env 404 "Task not found" path w1
  end.

End Handlers.

End TaskRouter.

(** ** Concrete worlds used by the examples below *)

Module Fixture.

Definition env0 : Env :=
  mkEnv (fun n => nth n ["u0"; "u1"; "u2"; "u3"; "u4"; "u5"; "u6"; "u7"] "u8")
        (fun n => 1000 + Z.of_nat n).

Definition emptyWorld : World := mkWorld [] [] 0 0 [].

Definition cfg0 : Config := SyncService.defaultConfig.

(** Task T1, title A, last written at time 100, waiting for its first sync. *)
Definition rowT1 : TaskRow :=
  mkTaskRow "T1" "A" "" 0 100 100 0 pending None None.

Definition rowT2 : TaskRow :=
  mkTaskRow "T2" "C" "" 0 110 110 0 pending None None.

Definition titleOnly (t : string) : PartialTask :=
  mkPartial None (Some t) None None None None None None None None.

Definition qCreateT1 : QueueRow :=
  mkQueueRow "q1" "T1" "create" (titleOnly "A") 100 0 None.

Definition qUpdateT1 : QueueRow :=
  mkQueueRow "q2" "T1" "update" (titleOnly "B") 105 0 None.

Definition qCreateT2 : QueueRow :=
  mkQueueRow "q3" "T2" "create" (titleOnly "C") 110 0 None.

(** The version of T1 a remote authority sends back: title B, written at 200. *)
Definition remoteT1 : Task :=
  mkTask "T1" "B" "remote" true (ValidDate 100) (ValidDate 200) false synced
         (Some "S1") None.

Definition conflictWorld : World :=
  mkWorld [rowT1] [qCreateT1] 0 0 [].

Definition conflictRemote : Remote :=
  mkRemote true
    (fun _ _ => inr [mkProcessed "T1" "S1" StConflict (Some remoteT1) None]).

Definition twoIntentsWorld : World :=
  mkWorld [rowT1; rowT2] [qCreateT1; qUpdateT1; qCreateT2] 0 0 [].

(** With batches of one intent: the first request is accepted, every later
    one fails in transit. *)
Definition flakyRemote : Remote :=
  mkRemote true
    (fun i batch =>
       match i with
       | O => inr (map (fun it => mkProcessed (task_id it) (task_id it)
                                              StSuccess None None) batch)
       | S _ => inl "timeout of 30000ms exceeded"
       end).

(** The same three intents, inserted newest first. *)
Definition shuffledWorld : World :=
  mkWorld [rowT1; rowT2] [qCreateT2; qUpdateT1; qCreateT1] 0 0 [].

(** A remote that accepts every intent, as the batch endpoint reports it. *)
Definition acceptingRemote : Remote :=
  mkRemote true
    (fun _ batch =>
       inr (map (fun it => mkProcessed (task_id it) (task_id it)
                                       StSuccess None None) batch)).

(** A remote that answers every request and rejects every intent. *)
Definition rejectingRemote : Remote :=
  mkRemote true
    (fun _ batch =>
       inr (map (fun it => mkProcessed (task_id it) (task_id it)
                                       StError None (Some "Task not found"))
                batch)).

Definition offlineRemote : Remote :=
  mkRemote false (fun _ _ => inl "Network Error").

Definition createIntent : SyncQueueItem :=
  mkItem "q1" "T1" "create" (titleOnly "A") (ValidDate 100) 0 None.

End Fixture.

(** ** Vocabulary of the statements *)

(** [a] is a valid date strictly after the valid date [b]. *)
Definition later (a b : Date) : Prop :=
  match SyncService.getTime a, SyncService.getTime b with
  | Some x, Some y => y < x
  | _, _ => False
  end.

Definition older_first (a b : QueueRow) : Prop :=
  q_created_at a <= q_created_at b.

(** What an entry of [errors] says, leaving its timestamp aside. *)
Definition entry_summary (e : SyncError) : string * string * string :=
  (err_task_id e, err_operation e, err_error e).

(** The content columns of a task row, as opposed to its sync metadata. *)
Definition row_content (r : TaskRow) : string * string * Z * Z :=
  (row_title r, row_description r, row_completed r, row_updated_at r).

Definition newest_first (a b : TaskRow) : Prop :=
  row_created_at b <= row_created_at a.

(** The row predicate behind [getTask]. *)
Definition visibleAs (taskId : string) (r : TaskRow) : bool :=
  String.eqb (row_id r) taskId && (row_is_deleted r =? 0).

(** The columns of a task row that only the task service writes. *)
Definition row_user_columns (r : TaskRow)
    : string * string * string * Z * Z * Z * Z :=
  (row_id r, row_title r, row_description r, row_completed r,
   row_created_at r, row_updated_at r, row_is_deleted r).

(** What identifies a queued intent, leaving the retry bookkeeping aside. *)
Definition intent_key (q : QueueRow)
    : string * string * string * PartialTask * Z :=
  (q_id q, q_task_id q, q_operation q, q_data q, q_created_at q).

(** Every row of [after] is a row of [before], up to its retry bookkeeping. *)
Definition queue_within (before after : list QueueRow) : Prop :=
  forall q', In q' after ->
             exists q, In q before /\ intent_key q = intent_key q'.

(** The remote answers every request, with one success outcome per intent
    of the batch, in order. *)
Definition accepts_all (remote : Remote) : Prop :=
  forall i batch,
    exists ps,
      post_batch remote i batch = inr ps /\
      Forall (fun p => status p = StSuccess) ps /\
      map client_id ps = map task_id batch.

(** The remote answers every request, whatever the outcomes say. *)
Definition always_answers (remote : Remote) : Prop :=
  forall i batch, exists ps, post_batch remote i batch = inr ps.

(** State of a pass over the queue of [w0] in which every outcome so far
    was a success, [done] being the task ids of the outcomes handled. *)
Definition all_synced (w0 : World) (done : list string)
    (st : World * SyncResult) : Prop :=
  (forall q, In q (sync_queue (fst st)) ->
             In q (sync_queue w0) /\ ~ In (q_task_id q) done) /\
  (forall r, In r (tasks (fst st)) -> In (row_id r) done ->
             row_sync_status r = synced /\ row_last_synced_at r <> None) /\
  snd st = mkResult true (Z.of_nat (List.length done)) 0 [].

Definition isSuccess (p : ProcessedItem) : bool :=
  match status p with
  | StSuccess => true
  | _ => false
  end.

(** The queue row [q] once the failures of the intents [done] are
    recorded with message [msg]. *)
Definition bumped (msg : string) (done : list SyncQueueItem) (q : QueueRow)
    : QueueRow :=
  if existsb (fun it => String.eqb (q_id q) (item_id it)) done
  then SyncService.setRetry (q_retry_count q + 1) msg q
  else q.

(** The task row [r] once the failures of the intents [done] are recorded:
    flagged when one of them belongs to the task and reached the ceiling. *)
Definition flagged (cfg : Config) (done : list SyncQueueItem) (r : TaskRow)
    : TaskRow :=
  if existsb (fun it => String.eqb (row_id r) (task_id it) &&
                        (maxRetries cfg <=? retry_count it + 1)) done
  then SyncService.setSyncStatusError r
  else r.

(** The tables of [w] are those of [w0] with the failures of the intents
    [done] recorded. *)
Definition failures_recorded (cfg : Config) (msg : string) (w0 : World)
    (done : list SyncQueueItem) (w : World) : Prop :=
  sync_queue w = map (bumped msg done) (sync_queue w0) /\
  tasks w = map (flagged cfg done) (tasks w0).

(** State of a pass over the queue of [w0] in which every request so far
    threw [msg], [done] being the intents of the batches handled. *)
Definition all_failed (cfg : Config) (msg : string) (w0 : World)
    (done : list SyncQueueItem) (st : World * SyncResult) : Prop :=
  failures_recorded cfg msg w0 done (fst st) /\
  synced_items (snd st) = 0 /\
  failed_items (snd st) = Z.of_nat (List.length done) /\
  map entry_summary (errors (snd st)) =
    map (fun it => (task_id it, operation it, msg)) done.

(** * Properties *)

(** ** Shared facts about strings, rows and the world *)

Lemma orElse_empty (s : string) : orElse (Some s) "" = s.
Proof.
  unfold orElse, truthy.
  destruct (String.eqb s "") eqn:E; simpl; [| reflexivity].
  apply String.eqb_eq in E. now subst.
Qed.

Lemma find_absent {A : Type} (f : A -> bool) (l : list A) :
  (forall x, In x l -> f x = false) -> find f l = None.
Proof.
  induction l as [| a l IH]; intros H; simpl; [reflexivity |].
  rewrite (H a (or_introl eq_refl)).
  apply IH. intros x Hx. apply H. now right.
Qed.

Lemma addToSyncQueue_tasks env taskId op d w :
  tasks (TaskService.addToSyncQueue env taskId op d w) = tasks w.
Proof. reflexivity. Qed.

Lemma addToSyncQueue_queue env taskId op d w :
  sync_queue (TaskService.addToSyncQueue env taskId op d w) =
  sync_queue w ++
  [mkQueueRow (uuid_stream env (uuid_calls w)) taskId op d
              (time_stream env (date_calls w)) 0 None].
Proof. reflexivity. Qed.

(** ** TaskService *)

(** Claim C9.  Whatever payload [createTask] receives, the task it returns is
    not completed, not deleted, pending, has neither [server_id] nor
    [last_synced_at], and carries one timestamp in both [created_at] and
    [updated_at]; its title is the payload's title, or the empty string when
    the payload has none. *)
Theorem createTask_returns_fresh_pending_task :
  forall (env : Env) (taskData : PartialTask) (w : World),
    let t := fst (TaskService.createTask env taskData w) in
    completed t = false /\
    is_deleted t = false /\
    sync_status t = pending /\
    server_id t = None /\
    last_synced_at t = None /\
    created_at t = updated_at t /\
    title t = match p_title taskData with Some s => s | None => "" end.
Proof.
  intros env taskData w. cbn.
  repeat split.
  destruct (p_title taskData) as [s |]; [apply orElse_empty | reflexivity].
Qed.

Lemma getTask_hidden (taskId : string) (w : World) :
  (forall r, In r (tasks w) -> row_id r = taskId -> row_is_deleted r <> 0) ->
  TaskService.getTask taskId w = None.
Proof.
  intros H. unfold TaskService.getTask.
  rewrite find_absent; [reflexivity |].
  intros r Hr.
  destruct (String.eqb (row_id r) taskId) eqn:E; simpl; [| reflexivity].
  apply String.eqb_eq in E.
  apply Z.eqb_neq. now apply H.
Qed.

Lemma deleteTask_hides (env : Env) (taskId : string) (w : World) :
  forall r, In r (tasks (snd (TaskService.deleteTask env taskId w))) ->
            row_id r = taskId -> row_is_deleted r <> 0 \/
            TaskService.getTask taskId w = None.
Proof.
  intros r. unfold TaskService.deleteTask.
  destruct (TaskService.getTask taskId w) as [t |]; [| now right].
  cbn. intros Hin Hid. left.
  apply in_map_iff in Hin. destruct Hin as [r0 [Hr0 _]].
  destruct (String.eqb (row_id r0) taskId) eqn:E.
  - subst r. cbn. discriminate.
  - subst r. apply String.eqb_neq in E. contradiction.
Qed.

(** Claim C10.  When every row carrying the id is soft-deleted (in particular
    when there is none), [getTask] finds nothing and [deleteTask] answers
    [false] and leaves the world, hence the sync queue, as it was.  A second
    [deleteTask] on the same id therefore answers [false] whatever the first
    one did. *)
Theorem deleteTask_absent_or_deleted :
  forall (env : Env) (taskId : string) (w : World),
    ((forall r, In r (tasks w) -> row_id r = taskId -> row_is_deleted r <> 0) ->
     TaskService.getTask taskId w = None /\
     TaskService.deleteTask env taskId w = (false, w)) /\
    (let w1 := snd (TaskService.deleteTask env taskId w) in
     TaskService.deleteTask env taskId w1 = (false, w1)).
Proof.
  intros env taskId w.
  assert (Hnone : forall w0, TaskService.getTask taskId w0 = None ->
                             TaskService.deleteTask env taskId w0 = (false, w0)).
  { intros w0 H0. unfold TaskService.deleteTask. now rewrite H0. }
  split.
  - intros H. pose proof (getTask_hidden taskId w H) as Hg. auto.
  - cbv zeta. apply Hnone.
    destruct (TaskService.getTask taskId w) eqn:G.
    + apply getTask_hidden. intros r Hr Hid.
      destruct (deleteTask_hides env taskId w r Hr Hid) as [Hd | Hd];
        [assumption | congruence].
    + rewrite (Hnone w G). exact G.
Qed.

(** On the fixture: the first [deleteTask] of T1 succeeds and queues one
    delete intent, the second finds T1 hidden and changes nothing. *)
Lemma deleteTask_absent_or_deleted_witness :
  let w := Fixture.conflictWorld in
  let r1 := TaskService.deleteTask Fixture.env0 "T1" w in
  fst r1 = true /\
  List.length (sync_queue (snd r1)) = 2%nat /\
  TaskService.getTask "T1" (snd r1) = None /\
  TaskService.deleteTask Fixture.env0 "T1" (snd r1) = (false, snd r1).
Proof.
  cbv zeta.
  split; [reflexivity |].
  split; [reflexivity |].
  apply (proj1 (deleteTask_absent_or_deleted Fixture.env0 "T1"
                  (snd (TaskService.deleteTask Fixture.env0 "T1"
                          Fixture.conflictWorld)))).
  intros r Hr Hid. vm_compute in Hr.
  destruct Hr as [Hr | []]. subst r. vm_compute. discriminate.
Defined.

(** ** Conflict resolver *)

(** Claim C2.  [resolveConflict] returns the local task when its
    [updated_at] is strictly later than the server's, the server task when
    the server's is strictly later, and the server task when both denote the
    same instant; resolving a task against itself gives that task.  The
    result is always one of the two arguments, whole: the function is a total
    map on task values and has no access to the store. *)
Theorem resolveConflict_last_write_wins :
  forall l r : Task,
    (later (updated_at l) (updated_at r) ->
     SyncService.resolveConflict l r = l) /\
    (later (updated_at r) (updated_at l) ->
     SyncService.resolveConflict l r = r) /\
    (SyncService.getTime (updated_at l) = SyncService.getTime (updated_at r) ->
     SyncService.resolveConflict l r = r) /\
    SyncService.resolveConflict l l = l /\
    (SyncService.resolveConflict l r = l \/ SyncService.resolveConflict l r = r).
Proof.
  intros l r. unfold SyncService.resolveConflict, later.
  repeat split.
  - destruct (SyncService.getTime (updated_at l)) as [x |],
             (SyncService.getTime (updated_at r)) as [y |];
      simpl; try contradiction.
    intros H. apply Z.ltb_lt in H. now rewrite H.
  - destruct (SyncService.getTime (updated_at l)) as [x |],
             (SyncService.getTime (updated_at r)) as [y |];
      simpl; try contradiction.
    intros H. assert (E : (y <? x) = false) by (apply Z.ltb_ge; lia).
    rewrite E. now destruct (x <? y).
  - intros E. rewrite E.
    destruct (SyncService.getTime (updated_at r)) as [y |]; simpl;
      [rewrite Z.ltb_irrefl |]; reflexivity.
  - now destruct (SyncService.js_gt _ _).
  - destruct (SyncService.js_gt _ _); [now left |].
    destruct (SyncService.js_gt _ _); now right.
Qed.

Lemma resolveConflict_last_write_wins_witness :
  later (updated_at Fixture.remoteT1)
        (updated_at (TaskService.mapRowToTask Fixture.rowT1)) /\
  SyncService.resolveConflict (TaskService.mapRowToTask Fixture.rowT1)
                              Fixture.remoteT1 = Fixture.remoteT1.
Proof.
  assert (H : later (updated_at Fixture.remoteT1)
                    (updated_at (TaskService.mapRowToTask Fixture.rowT1)))
    by (vm_compute; reflexivity).
  split; [exact H |].
  exact (proj1 (proj2 (resolveConflict_last_write_wins
                         (TaskService.mapRowToTask Fixture.rowT1)
                         Fixture.remoteT1)) H).
Defined.

(** ** Recording a failure *)

Lemma handleSyncError_queue cfg item msg w :
  sync_queue (SyncService.handleSyncError cfg item msg w) =
  map (fun q => if String.eqb (q_id q) (item_id item)
                then SyncService.setRetry (retry_count item + 1) msg q else q)
      (sync_queue w).
Proof.
  unfold SyncService.handleSyncError.
  destruct (maxRetries cfg <=? retry_count item + 1); reflexivity.
Qed.

Lemma handleSyncError_queue_ids cfg item msg w :
  map q_id (sync_queue (SyncService.handleSyncError cfg item msg w)) =
  map q_id (sync_queue w).
Proof.
  rewrite handleSyncError_queue, map_map.
  apply map_ext. intros q.
  now destruct (String.eqb (q_id q) (item_id item)).
Qed.

Lemma handleSyncError_counters cfg item msg w :
  uuid_calls (SyncService.handleSyncError cfg item msg w) = uuid_calls w /\
  date_calls (SyncService.handleSyncError cfg item msg w) = date_calls w /\
  posted (SyncService.handleSyncError cfg item msg w) = posted w.
Proof.
  unfold SyncService.handleSyncError.
  destruct (maxRetries cfg <=? retry_count item + 1); repeat split.
Qed.

(** Claim C5.  [handleSyncError] never removes a queue row: the queue keeps
    the same ids in the same order, the failed intent's row now holds the
    snapshot's [retry_count] plus one and the error message, and the other
    rows are untouched.  When that new count reaches [maxRetries], every task
    row owned by the intent gets [sync_status = error] (no task row is added
    or dropped); while the count stays below [maxRetries] the task table is
    left exactly as it was. *)
Theorem handleSyncError_retry_ceiling :
  forall (cfg : Config) (item : SyncQueueItem) (msg : string) (w : World),
    let w' := SyncService.handleSyncError cfg item msg w in
    let n := retry_count item + 1 in
    map q_id (sync_queue w') = map q_id (sync_queue w) /\
    (forall q, In q (sync_queue w) -> q_id q = item_id item ->
       exists q', In q' (sync_queue w') /\
                  q_id q' = q_id q /\ q_task_id q' = q_task_id q /\
                  q_operation q' = q_operation q /\ q_data q' = q_data q /\
                  q_created_at q' = q_created_at q /\
                  q_retry_count q' = n /\ q_error_message q' = Some msg) /\
    (forall q', In q' (sync_queue w') -> q_id q' = item_id item ->
       q_retry_count q' = n /\ q_error_message q' = Some msg) /\
    (forall q, In q (sync_queue w) -> q_id q <> item_id item ->
       In q (sync_queue w')) /\
    (maxRetries cfg <= n ->
       map row_id (tasks w') = map row_id (tasks w) /\
       (forall r, In r (tasks w') -> row_id r = task_id item ->
          row_sync_status r = error) /\
       (forall r, In r (tasks w) -> row_id r <> task_id item ->
          In r (tasks w'))) /\
    (n < maxRetries cfg -> tasks w' = tasks w).
Proof.
  intros cfg item msg w w' n.
  split; [apply handleSyncError_queue_ids |].
  split.
  { intros q Hq Hid.
    exists (SyncService.setRetry n msg q).
    split; [| cbn; repeat split; reflexivity].
    subst w'. rewrite handleSyncError_queue.
    apply in_map_iff. exists q. split; [| exact Hq].
    apply String.eqb_eq in Hid. now rewrite Hid. }
  split.
  { intros q' Hq' Hid. subst w'.
    rewrite handleSyncError_queue in Hq'.
    apply in_map_iff in Hq'. destruct Hq' as [q [Hq _]].
    destruct (String.eqb (q_id q) (item_id item)) eqn:E.
    - subst q'. cbn. now split.
    - subst q'. apply String.eqb_neq in E. contradiction. }
  split.
  { intros q Hq Hid. subst w'. rewrite handleSyncError_queue.
    apply in_map_iff. exists q. split; [| exact Hq].
    apply String.eqb_neq in Hid. now rewrite Hid. }
  split.
  - intros Hn. subst w'. unfold SyncService.handleSyncError.
    fold n. apply Z.leb_le in Hn. rewrite Hn. cbn.
    split; [| split].
    + rewrite map_map. apply map_ext. intros r.
      now destruct (String.eqb (row_id r) (task_id item)).
    + intros r Hr Hid. apply in_map_iff in Hr. destruct Hr as [r0 [Hr0 _]].
      destruct (String.eqb (row_id r0) (task_id item)) eqn:E.
      * now subst r.
      * subst r. apply String.eqb_neq in E. contradiction.
    + intros r Hr Hid. apply in_map_iff. exists r. split; [| exact Hr].
      apply String.eqb_neq in Hid. now rewrite Hid.
  - intros Hn. subst w'. unfold SyncService.handleSyncError.
    fold n. assert (E : (maxRetries cfg <=? n) = false) by (apply Z.leb_gt; lia).
    now rewrite E.
Qed.

(** On the fixture with [maxRetries = 3]: the third failure of the create
    intent of T1 flags T1 as [error] and keeps the intent queued, while a
    first failure leaves the task table alone. *)
Lemma handleSyncError_retry_ceiling_witness :
  let third := mkItem "q1" "T1" "create" (Fixture.titleOnly "A")
                      (ValidDate 100) 2 None in
  let first := SyncService.rowToItem Fixture.qCreateT1 in
  let w := Fixture.conflictWorld in
  (forall r,
     In r (tasks (SyncService.handleSyncError Fixture.cfg0 third "boom" w)) ->
     row_id r = "T1" -> row_sync_status r = error) /\
  map q_id (sync_queue (SyncService.handleSyncError Fixture.cfg0 third "boom" w))
  = ["q1"] /\
  tasks (SyncService.handleSyncError Fixture.cfg0 first "boom" w) = tasks w.
Proof.
  cbv zeta.
  pose proof (handleSyncError_retry_ceiling Fixture.cfg0
                (mkItem "q1" "T1" "create" (Fixture.titleOnly "A")
                        (ValidDate 100) 2 None)
                "boom" Fixture.conflictWorld) as H3.
  pose proof (handleSyncError_retry_ceiling Fixture.cfg0
                (SyncService.rowToItem Fixture.qCreateT1)
                "boom" Fixture.conflictWorld) as H1.
  cbv zeta in H3, H1.
  destruct H3 as (Hids & _ & _ & _ & Hceil & _).
  destruct H1 as (_ & _ & _ & _ & _ & Hbelow).
  split; [| split].
  - apply Hceil. vm_compute. discriminate.
  - rewrite Hids. reflexivity.
  - apply Hbelow. vm_compute. reflexivity.
Defined.

(** ** A pass without connectivity *)

(** Claim C7.  When the health probe fails, [sync] returns at once with
    [success = false], zero counts and the single connectivity entry; the
    task table, the sync queue and the request log are those of the start
    (only the clock was read, for the entry's timestamp). *)
Theorem sync_unreachable_changes_nothing :
  forall (env : Env) (cfg : Config) (remote : Remote) (w : World),
    reachable remote = false ->
    exists w' res,
      SyncService.sync env cfg remote w = Some (w', res) /\
      success res = false /\
      synced_items res = 0 /\
      failed_items res = 0 /\
      map entry_summary (errors res) =
        [("N/A", "connectivity", "Server is not reachable")] /\
      tasks w' = tasks w /\
      sync_queue w' = sync_queue w /\
      posted w' = posted w /\
      uuid_calls w' = uuid_calls w.
Proof.
  intros env cfg remote w H.
  unfold SyncService.sync, SyncService.checkConnectivity.
  rewrite H. cbn.
  eexists. eexists. split; [reflexivity |].
  cbn. repeat split.
Qed.

Lemma sync_unreachable_changes_nothing_witness :
  exists w' res,
    SyncService.sync Fixture.env0 Fixture.cfg0 Fixture.offlineRemote
                     Fixture.twoIntentsWorld = Some (w', res) /\
    success res = false /\
    map row_sync_status (tasks w') = [pending; pending] /\
    sync_queue w' = sync_queue Fixture.twoIntentsWorld.
Proof.
  destruct (sync_unreachable_changes_nothing Fixture.env0 Fixture.cfg0
              Fixture.offlineRemote Fixture.twoIntentsWorld eq_refl)
    as (w' & res & Hs & Hok & _ & _ & _ & Ht & Hq & _).
  exists w', res.
  split; [exact Hs |].
  split; [exact Hok |].
  split; [rewrite Ht; reflexivity | exact Hq].
Defined.

(** ** What one pass leaves untouched *)

Lemma fold_left_invariant {A B : Type} (f : A -> B -> A) (P : A -> Prop) :
  (forall a b, P a -> P (f a b)) ->
  forall l a, P a -> P (fold_left f l a).
Proof.
  intros Hf l. induction l as [| b l IH]; intros a Ha; simpl; auto.
Qed.

Lemma handleProcessed_posted env cfg batch st p :
  posted (fst (SyncService.handleProcessed env cfg batch st p)) =
  posted (fst st).
Proof.
  destruct st as [w res]. unfold SyncService.handleProcessed.
  destruct (status p); cbn.
  - reflexivity.
  - destruct (TaskService.getTask (client_id p) w); [| reflexivity].
    destruct (resolved_data p); reflexivity.
  - destruct (find _ batch); cbn; [| reflexivity].
    apply handleSyncError_counters.
Qed.

Lemma failItem_posted env cfg msg st item :
  posted (fst (SyncService.failItem env cfg msg st item)) = posted (fst st).
Proof.
  destruct st as [w res]. cbn. apply handleSyncError_counters.
Qed.

Lemma syncBatch_posted env cfg remote i items st :
  posted (fst (SyncService.syncBatch env cfg remote i items st)) =
  posted (fst st) ++ [SyncService.slice i (i + batchSize cfg) items].
Proof.
  destruct st as [w res]. unfold SyncService.syncBatch, SyncService.processBatch.
  cbn -[SyncService.slice].
  set (batch := SyncService.slice i (i + batchSize cfg) items).
  set (w1 := mkWorld (tasks w) (sync_queue w) (uuid_calls w) (S (date_calls w))
                     (posted w ++ [batch])).
  destruct (post_batch remote i batch) as [msg | ps].
  - apply (fold_left_invariant (SyncService.failItem env cfg msg)
             (fun s => posted (fst s) = posted w ++ [batch])); [| reflexivity].
    intros a b Ha. now rewrite failItem_posted.
  - apply (fold_left_invariant (SyncService.handleProcessed env cfg batch)
             (fun s => posted (fst s) = posted w ++ [batch])); [| reflexivity].
    intros a b Ha. now rewrite handleProcessed_posted.
Qed.

(** ** Draining the queue *)

Lemma insert_by_created_at_perm (r : QueueRow) (l : list QueueRow) :
  Permutation (SyncService.insert_by_created_at r l) (r :: l).
Proof.
  induction l as [| h t IH]; simpl; [reflexivity |].
  destruct (q_created_at r <=? q_created_at h); [reflexivity |].
  rewrite IH. apply perm_swap.
Qed.

Lemma order_by_created_at_perm (l : list QueueRow) :
  Permutation (SyncService.order_by_created_at l) l.
Proof.
  induction l as [| r l IH]; simpl; [constructor |].
  rewrite insert_by_created_at_perm. now constructor.
Qed.

Lemma insert_by_created_at_hd (r x : QueueRow) (l : list QueueRow) :
  older_first x r -> HdRel older_first x l ->
  HdRel older_first x (SyncService.insert_by_created_at r l).
Proof.
  intros Hxr Hl. destruct l as [| h t]; simpl.
  - now constructor.
  - destruct (q_created_at r <=? q_created_at h); constructor; auto.
    now inversion Hl.
Qed.

Lemma insert_by_created_at_sorted (r : QueueRow) (l : list QueueRow) :
  Sorted older_first l ->
  Sorted older_first (SyncService.insert_by_created_at r l).
Proof.
  induction l as [| h t IH]; intros Hs; simpl.
  - repeat constructor.
  - destruct (q_created_at r <=? q_created_at h) eqn:E.
    + constructor; [exact Hs |]. constructor. now apply Z.leb_le.
    + inversion Hs as [| ? ? Ht Hh]; subst.
      constructor; [now apply IH |].
      apply insert_by_created_at_hd; [| exact Hh].
      unfold older_first. apply Z.leb_gt in E. lia.
Qed.

Lemma order_by_created_at_sorted (l : list QueueRow) :
  Sorted older_first (SyncService.order_by_created_at l).
Proof.
  induction l as [| r l IH]; simpl; [constructor |].
  now apply insert_by_created_at_sorted.
Qed.

Lemma slice_window {A : Type} (i n : nat) (l : list A) :
  SyncService.slice i (i + n) l = firstn n (skipn i l).
Proof.
  unfold SyncService.slice. f_equal. lia.
Qed.

(** With a positive batch size the loop started at offset [i] ends within
    [length queueItems - i] iterations, and the batches it posts are
    non-empty, at most [batchSize] long, and spell out the rest of the list
    from [i] on, in order. *)
Lemma syncLoop_posts_in_order env cfg remote (items : list SyncQueueItem) :
  (0 < batchSize cfg)%nat ->
  forall fuel i st,
    (List.length items - i <= fuel)%nat ->
    exists st' batches,
      SyncService.syncLoop fuel env cfg remote i items st = Some st' /\
      posted (fst st') = posted (fst st) ++ batches /\
      List.concat batches = skipn i items /\
      Forall (fun b => b <> [] /\ (List.length b <= batchSize cfg)%nat) batches.
Proof.
  intros Hbs fuel.
  induction fuel as [| fuel IH]; intros i st Hfuel.
  - exists st, []. simpl.
    assert (E : (i <? List.length items)%nat = false)
      by (apply Nat.ltb_ge; lia).
    rewrite E, app_nil_r, skipn_all2 by lia. auto.
  - simpl. destruct (i <? List.length items)%nat eqn:E.
    + apply Nat.ltb_lt in E.
      destruct (IH (i + batchSize cfg)%nat
                   (SyncService.syncBatch env cfg remote i items st))
        as (st' & batches & Hrun & Hposted & Hcat & Hall); [lia |].
      exists st', (SyncService.slice i (i + batchSize cfg) items :: batches).
      split; [exact Hrun |].
      split.
      { rewrite Hposted, syncBatch_posted, <- app_assoc. reflexivity. }
      rewrite slice_window. split.
      { simpl. rewrite Hcat.
        replace (i + batchSize cfg)%nat with (batchSize cfg + i)%nat by lia.
        rewrite <- skipn_skipn. apply firstn_skipn. }
      constructor; [| exact Hall].
      split.
      * intros Hnil. apply (f_equal (@List.length _)) in Hnil.
        rewrite length_firstn, length_skipn in Hnil. simpl in Hnil. lia.
      * rewrite length_firstn. lia.
    + apply Nat.ltb_ge in E.
      exists st, []. rewrite app_nil_r, skipn_all2 by lia. auto.
Qed.

(** Claim C8.  [getSyncQueueItems] returns every queue row exactly once
    (a permutation of the table, so intents of one task are all kept) in
    ascending [created_at] order, whatever the insertion order was; and an
    online pass with a positive batch size posts non-empty batches of at
    most [batchSize] intents whose concatenation is that ordered list. *)
Theorem drain_oldest_first :
  forall w : World,
    exists rows,
      SyncService.getSyncQueueItems w = map SyncService.rowToItem rows /\
      Permutation rows (sync_queue w) /\
      Sorted older_first rows /\
      (forall env cfg remote,
         reachable remote = true ->
         (0 < batchSize cfg)%nat ->
         exists w' res batches,
           SyncService.sync env cfg remote w = Some (w', res) /\
           posted w' = posted w ++ batches /\
           List.concat batches = SyncService.getSyncQueueItems w /\
           Forall (fun b => b <> [] /\ (List.length b <= batchSize cfg)%nat)
                  batches).
Proof.
  intros w. exists (SyncService.order_by_created_at (sync_queue w)).
  split; [reflexivity |].
  split; [apply order_by_created_at_perm |].
  split; [apply order_by_created_at_sorted |].
  intros env cfg remote Hon Hbs.
  unfold SyncService.sync, SyncService.checkConnectivity. rewrite Hon. cbn.
  destruct (List.length (SyncService.getSyncQueueItems w) =? 0)%nat eqn:E.
  - apply Nat.eqb_eq in E. apply length_zero_iff_nil in E.
    exists w, SyncService.initialResult, [].
    rewrite E, app_nil_r. auto.
  - destruct (syncLoop_posts_in_order env cfg remote
                (SyncService.getSyncQueueItems w) Hbs
                (List.length (SyncService.getSyncQueueItems w)) 0%nat
                (w, SyncService.initialResult))
      as ([w' res] & batches & Hrun & Hposted & Hcat & Hall); [lia |].
    exists w', res, batches. auto.
Qed.

(** Rows inserted newest first are posted oldest first, one per batch when
    [batchSize = 1]. *)
Lemma drain_oldest_first_witness :
  exists w' res,
    SyncService.sync Fixture.env0 (mkConfig 1 3) Fixture.flakyRemote
                     Fixture.shuffledWorld = Some (w', res) /\
    map (map item_id) (posted w') = [["q1"]; ["q2"]; ["q3"]].
Proof.
  destruct (drain_oldest_first Fixture.shuffledWorld)
    as (rows & _ & _ & _ & Hsync).
  destruct (Hsync Fixture.env0 (mkConfig 1 3) Fixture.flakyRemote eq_refl)
    as (w' & res & batches & Hrun & _); [cbn; lia |].
  exists w', res. split; [exact Hrun |].
  vm_compute in Hrun. injection Hrun as Hw _. subst w'. reflexivity.
Defined.

(** ** A batch whose request fails *)

Lemma failItem_queue env cfg msg st item :
  sync_queue (fst (SyncService.failItem env cfg msg st item)) =
  map (fun q => if String.eqb (q_id q) (item_id item)
                then SyncService.setRetry (retry_count item + 1) msg q else q)
      (sync_queue (fst st)).
Proof.
  destruct st as [w res]. cbn. apply handleSyncError_queue.
Qed.

Lemma failItem_fold_result env cfg msg (l : list SyncQueueItem) :
  forall w res,
    let st' := fold_left (SyncService.failItem env cfg msg) l (w, res) in
    success (snd st') = success res /\
    synced_items (snd st') = synced_items res /\
    failed_items (snd st') = failed_items res /\
    exists es,
      errors (snd st') = errors res ++ es /\
      map entry_summary es = map (fun it => (task_id it, operation it, msg)) l.
Proof.
  induction l as [| x l IH]; intros w res; cbn.
  - repeat split. exists []. now rewrite app_nil_r.
  - match goal with
    | |- context [fold_left _ l (?w1, ?r1)] =>
        destruct (IH w1 r1) as (Hs & Hy & Hf & es & He & Hm)
    end.
    cbn in Hs, Hy, Hf, He.
    repeat split; try assumption.
    eexists (_ :: es). rewrite He, <- app_assoc. cbn.
    split; [reflexivity |]. now rewrite Hm.
Qed.

Lemma failItem_fold_queue_ids env cfg msg (l : list SyncQueueItem) st :
  map q_id (sync_queue (fst (fold_left (SyncService.failItem env cfg msg) l st)))
  = map q_id (sync_queue (fst st)).
Proof.
  apply (fold_left_invariant (SyncService.failItem env cfg msg)
           (fun s => map q_id (sync_queue (fst s)) =
                     map q_id (sync_queue (fst st)))); [| reflexivity].
  intros a b Ha. rewrite failItem_queue, map_map, <- Ha.
  apply map_ext. intros q. now destruct (String.eqb (q_id q) (item_id b)).
Qed.

Lemma failItem_fold_retry env cfg msg (l : list SyncQueueItem) st :
  NoDup (map item_id l) ->
  forall item q',
    In item l ->
    In q' (sync_queue (fst (fold_left (SyncService.failItem env cfg msg) l st))) ->
    q_id q' = item_id item ->
    q_retry_count q' = retry_count item + 1 /\ q_error_message q' = Some msg.
Proof.
  induction l as [| x l IH] using rev_ind; intros Hnd item q' Hin Hq Hid.
  - destruct Hin.
  - rewrite fold_left_app in Hq. cbn [fold_left] in Hq.
    rewrite failItem_queue in Hq.
    apply in_map_iff in Hq. destruct Hq as [q0 [Hq0 Hin0]].
    rewrite map_app in Hnd. cbn in Hnd.
    apply NoDup_remove in Hnd. rewrite app_nil_r in Hnd.
    destruct Hnd as [Hnd Hfresh].
    apply in_app_or in Hin.
    destruct (String.eqb (q_id q0) (item_id x)) eqn:E.
    + apply String.eqb_eq in E. subst q'. cbn in Hid.
      destruct Hin as [Hin | [Hx | []]].
      * exfalso. apply Hfresh. rewrite <- E, Hid. now apply in_map.
      * subst x. cbn. now split.
    + apply String.eqb_neq in E. subst q'.
      destruct Hin as [Hin | [Hx | []]].
      * now apply (IH Hnd item q0).
      * subst x. contradiction.
Qed.

Lemma handleProcessed_success env cfg batch st p :
  success (snd (SyncService.handleProcessed env cfg batch st p)) =
  success (snd st).
Proof.
  destruct st as [w res]. unfold SyncService.handleProcessed.
  destruct (status p); cbn; try reflexivity.
  destruct (TaskService.getTask (client_id p) w); [| reflexivity].
  destruct (resolved_data p); reflexivity.
Qed.

Lemma syncBatch_keeps_failure env cfg remote i items st :
  success (snd st) = false ->
  success (snd (SyncService.syncBatch env cfg remote i items st)) = false.
Proof.
  destruct st as [w res]. cbn [snd]. intros Hres.
  unfold SyncService.syncBatch, SyncService.processBatch.
  cbn -[SyncService.slice].
  destruct (post_batch remote i _) as [msg | ps].
  - match goal with
    | |- context [fold_left _ ?l (?w1, ?r1)] =>
        destruct (failItem_fold_result env cfg msg l w1 r1) as [Hs _]
    end.
    cbv zeta in Hs. now rewrite Hs.
  - apply (fold_left_invariant (SyncService.handleProcessed env cfg _)
             (fun s => success (snd s) = false)); [| exact Hres].
    intros a b Ha. now rewrite handleProcessed_success.
Qed.

Lemma syncLoop_keeps_failure env cfg remote items :
  forall fuel i st st',
    success (snd st) = false ->
    SyncService.syncLoop fuel env cfg remote i items st = Some st' ->
    success (snd st') = false.
Proof.
  induction fuel as [| fuel IH]; intros i st st' Hst Hrun; simpl in Hrun;
    destruct (i <? List.length items)%nat; try discriminate.
  - now inversion Hrun; subst.
  - eapply IH; [| exact Hrun]. now apply syncBatch_keeps_failure.
  - now inversion Hrun; subst.
Qed.

(** Property X22.  What the [catch] of the batch loop does when the request
    for a batch throws: [success] becomes false, the batch's size is added to
    [failed_items], [synced_items] is left alone and one entry per intent of
    the batch is appended, in order, with the exception's message.  No queue
    row is removed, and every row still queued under the id of an intent of
    the batch now holds that intent's [retry_count] plus one and the message.
    With a positive batch size the loop then runs to its end: it posts the
    batches that spell out the rest of the list and returns a result whose
    [success] is false. *)
Theorem batch_failure_bookkeeping :
  forall (env : Env) (cfg : Config) (remote : Remote) (i : nat)
         (items : list SyncQueueItem) (w : World) (res : SyncResult)
         (msg : string),
    let batch := SyncService.slice i (i + batchSize cfg) items in
    post_batch remote i batch = inl msg ->
    NoDup (map item_id batch) ->
    let st' := SyncService.syncBatch env cfg remote i items (w, res) in
    success (snd st') = false /\
    failed_items (snd st') = failed_items res + Z.of_nat (List.length batch) /\
    synced_items (snd st') = synced_items res /\
    (exists es,
        errors (snd st') = errors res ++ es /\
        map entry_summary es =
          map (fun it => (task_id it, operation it, msg)) batch) /\
    map q_id (sync_queue (fst st')) = map q_id (sync_queue w) /\
    (forall item q',
        In item batch -> In q' (sync_queue (fst st')) ->
        q_id q' = item_id item ->
        q_retry_count q' = retry_count item + 1 /\
        q_error_message q' = Some msg) /\
    ((0 < batchSize cfg)%nat ->
     (i < List.length items)%nat ->
     forall fuel,
       (List.length items - i <= fuel)%nat ->
       exists final rest,
         SyncService.syncLoop fuel env cfg remote i items (w, res)
           = Some final /\
         success (snd final) = false /\
         posted (fst final) = posted w ++ batch :: rest /\
         List.concat rest = skipn (i + batchSize cfg) items).
Proof.
  intros env cfg remote i items w res msg batch Hpost Hnd st'.
  assert (Hst : st' =
    fold_left (SyncService.failItem env cfg msg) batch
      (mkWorld (tasks w) (sync_queue w) (uuid_calls w) (S (date_calls w))
               (posted w ++ [batch]),
       SyncService.add_failed (SyncService.set_success res false)
                              (Z.of_nat (List.length batch)))).
  { subst st'. unfold SyncService.syncBatch, SyncService.processBatch.
    cbn -[SyncService.slice]. fold batch. now rewrite Hpost. }
  assert (Hdef : st' = SyncService.syncBatch env cfg remote i items (w, res))
    by reflexivity.
  clearbody st'.
  match type of Hst with
  | _ = fold_left _ _ (?w1, ?r1) =>
      destruct (failItem_fold_result env cfg msg batch w1 r1)
        as (Hs & Hy & Hf & es & He & Hm)
  end.
  cbv zeta in Hs, Hy, Hf, He. rewrite <- Hst in Hs, Hy, Hf, He.
  cbn in Hs, Hy, Hf, He.
  assert (Hfail : success (snd st') = false) by exact Hs.
  split; [exact Hfail |].
  split; [exact Hf |].
  split; [exact Hy |].
  split; [exists es; now split |].
  split; [rewrite Hst; apply failItem_fold_queue_ids |].
  split.
  { intros item q' Hin Hq Hid. rewrite Hst in Hq.
    eapply failItem_fold_retry; eauto. }
  intros Hbs Hi fuel Hfuel.
  destruct fuel as [| fuel]; [lia |].
  destruct (syncLoop_posts_in_order env cfg remote items Hbs fuel
              (i + batchSize cfg)%nat st')
    as (final & rest & Hrun & Hposted & Hcat & _); [lia |].
  exists final, rest.
  split.
  { change (SyncService.syncLoop (S fuel) env cfg remote i items (w, res))
      with (if (i <? List.length items)%nat
            then SyncService.syncLoop fuel env cfg remote (i + batchSize cfg)
                   items (SyncService.syncBatch env cfg remote i items (w, res))
            else Some (w, res)).
    apply Nat.ltb_lt in Hi. now rewrite Hi, <- Hdef. }
  split; [eapply syncLoop_keeps_failure; eauto |].
  split; [| exact Hcat].
  rewrite Hposted, Hdef, syncBatch_posted, <- app_assoc. reflexivity.
Qed.

(** With one intent per batch and a remote that accepts only the first
    request: the batch at offset 2 (the create intent of T2) fails, its row
    stays queued with [retry_count = 1] and the timeout message. *)
Lemma batch_failure_bookkeeping_witness :
  let cfg := mkConfig 1 3 in
  let items := SyncService.getSyncQueueItems Fixture.twoIntentsWorld in
  let st' := SyncService.syncBatch Fixture.env0 cfg Fixture.flakyRemote 2 items
               (Fixture.twoIntentsWorld, SyncService.initialResult) in
  success (snd st') = false /\
  failed_items (snd st') = 1 /\
  map entry_summary (errors (snd st')) =
    [("T2", "create", "timeout of 30000ms exceeded")] /\
  map (fun q => (q_id q, q_retry_count q)) (sync_queue (fst st')) =
    [("q1", 0); ("q2", 0); ("q3", 1)].
Proof.
  cbv zeta.
  assert (Hnd : NoDup (map item_id
            (SyncService.slice 2 (2 + batchSize (mkConfig 1 3))
               (SyncService.getSyncQueueItems Fixture.twoIntentsWorld)))).
  { vm_compute. constructor; [intros [] | constructor]. }
  destruct (batch_failure_bookkeeping Fixture.env0 (mkConfig 1 3)
              Fixture.flakyRemote 2
              (SyncService.getSyncQueueItems Fixture.twoIntentsWorld)
              Fixture.twoIntentsWorld SyncService.initialResult
              "timeout of 30000ms exceeded" eq_refl Hnd)
    as (Hs & Hf & _).
  split; [exact Hs |].
  split; [rewrite Hf; reflexivity |].
  split; reflexivity.
Defined.

(** Claim C6, on the code.  The queue holds a create and an update intent
    for T1 and a create intent for T2, batches hold one intent, and the
    remote accepts the first request and times out on the others.  The
    success outcome of the first batch deletes both rows of T1, so when the
    request for the second batch, the update intent q2, throws, the pass
    counts it as failed and reports it, but the queue has no row q2 to carry
    the retry count and the message: before and after that batch it holds
    only q3, untouched.  The pass goes on to the third batch and ends with
    [success = false] and q2 gone. *)
Theorem failed_batch_of_removed_intent_records_nothing :
  let cfg := mkConfig 1 3 in
  let items := SyncService.getSyncQueueItems Fixture.twoIntentsWorld in
  let st1 := SyncService.syncBatch Fixture.env0 cfg Fixture.flakyRemote 0 items
               (Fixture.twoIntentsWorld, SyncService.initialResult) in
  let st2 := SyncService.syncBatch Fixture.env0 cfg Fixture.flakyRemote 1 items
               st1 in
  let row := fun q => (q_id q, q_retry_count q, q_error_message q) in
  SyncService.slice 1 (1 + batchSize cfg) items =
    [SyncService.rowToItem Fixture.qUpdateT1] /\
  post_batch Fixture.flakyRemote 1 [SyncService.rowToItem Fixture.qUpdateT1] =
    inl "timeout of 30000ms exceeded" /\
  map row (sync_queue (fst st1)) = [("q3", 0, None)] /\
  map row (sync_queue (fst st2)) = [("q3", 0, None)] /\
  success (snd st2) = false /\
  failed_items (snd st2) = 1 /\
  map entry_summary (errors (snd st2)) =
    [("T1", "update", "timeout of 30000ms exceeded")] /\
  exists w' res,
    SyncService.sync Fixture.env0 cfg Fixture.flakyRemote
                     Fixture.twoIntentsWorld = Some (w', res) /\
    success res = false /\
    failed_items res = 2 /\
    map row (sync_queue w') =
      [("q3", 1, Some "timeout of 30000ms exceeded")].
Proof.
  cbv zeta. repeat (split; [reflexivity |]).
  eexists. eexists. split; [vm_compute; reflexivity |].
  cbn. repeat split.
Qed.

(** ** Outcomes that commit: success and conflict *)

Lemma updateSyncStatus_content env taskId st serverData w :
  map row_content (tasks (SyncService.updateSyncStatus env taskId st serverData w))
  = map row_content (tasks w).
Proof.
  cbn. rewrite map_map. apply map_ext. intros r.
  now destruct (String.eqb (row_id r) taskId).
Qed.

(** Handling a conflict outcome never writes a content column: title,
    description, completed and updated_at of every task row stay as they
    were, whichever side [resolveConflict] picked. *)
Lemma handleProcessed_conflict_content env cfg batch w res p :
  status p = StConflict ->
  map row_content
      (tasks (fst (SyncService.handleProcessed env cfg batch (w, res) p)))
  = map row_content (tasks w).
Proof.
  intros Hst. unfold SyncService.handleProcessed. rewrite Hst.
  destruct (TaskService.getTask (client_id p) w); [| reflexivity].
  destruct (resolved_data p); [| reflexivity].
  cbn. rewrite map_map. apply map_ext. intros r.
  now destruct (String.eqb (row_id r) (client_id p)).
Qed.

(** Claim C1, on the code.  Local T1 has title A written at 100; the remote
    answers the batch with a conflict whose resolved version has title B
    written at 200, so the server version wins.  After the pass the row of T1
    is marked synced, the intent is gone, [synced_items] is 1 and one
    conflict entry is reported, but the row still holds the local title,
    description, completed flag and updated_at: only [server_id] was taken
    from the winner. *)
Theorem conflict_winner_content_not_persisted :
  SyncService.resolveConflict (TaskService.mapRowToTask Fixture.rowT1)
                              Fixture.remoteT1 = Fixture.remoteT1 /\
  exists w' res,
    SyncService.sync Fixture.env0 Fixture.cfg0 Fixture.conflictRemote
                     Fixture.conflictWorld = Some (w', res) /\
    map row_content (tasks w') = [("A", "", 0, 100)] /\
    map row_content (tasks w') <> [("B", "remote", 1, 200)] /\
    map row_sync_status (tasks w') = [synced] /\
    map row_server_id (tasks w') = [Some "S1"] /\
    sync_queue w' = [] /\
    synced_items res = 1 /\
    failed_items res = 0 /\
    map entry_summary (errors res) =
      [("T1", "conflict", "Conflict resolved using last-write-wins")].
Proof.
  split; [reflexivity |].
  eexists. eexists. split; [vm_compute; reflexivity |].
  cbn. repeat split. discriminate.
Qed.

Lemma removeFromSyncQueue_keeps taskId w q :
  In q (sync_queue (SyncService.removeFromSyncQueue taskId w)) <->
  In q (sync_queue w) /\ q_task_id q <> taskId.
Proof.
  cbn. rewrite filter_In. split; intros [Hin H]; split; auto.
  - apply negb_true_iff in H. now apply String.eqb_neq.
  - apply negb_true_iff. now apply String.eqb_neq.
Qed.

(** Claim C3, on the code.  The queue holds a create and an update intent
    for T1 and a create intent for T2.  Handling the success outcome of the
    create intent of T1 deletes both intents of T1.  With one intent per
    batch and a remote that accepts only the first request, the update of T1
    is therefore reported as failed while its row is no longer there to
    carry the retry: the pass ends with T1 marked synced and only the intent
    of T2 queued. *)
Theorem success_outcome_removes_sibling_intents :
  let step :=
    SyncService.handleProcessed Fixture.env0 Fixture.cfg0
      [SyncService.rowToItem Fixture.qCreateT1]
      (Fixture.twoIntentsWorld, SyncService.initialResult)
      (mkProcessed "T1" "T1" StSuccess None None) in
  map q_id (sync_queue Fixture.twoIntentsWorld) = ["q1"; "q2"; "q3"] /\
  map q_id (sync_queue (fst step)) = ["q3"] /\
  exists w' res,
    SyncService.sync Fixture.env0 (mkConfig 1 3) Fixture.flakyRemote
                     Fixture.twoIntentsWorld = Some (w', res) /\
    map entry_summary (errors res) =
      [("T1", "update", "timeout of 30000ms exceeded");
       ("T2", "create", "timeout of 30000ms exceeded")] /\
    map (fun q => (q_id q, q_retry_count q)) (sync_queue w') = [("q3", 1)] /\
    map (fun r => (row_id r, row_sync_status r)) (tasks w') =
      [("T1", synced); ("T2", pending)].
Proof.
  cbv zeta. split; [reflexivity |]. split; [reflexivity |].
  eexists. eexists. split; [vm_compute; reflexivity |].
  cbn. repeat split.
Qed.

(** ** Applying a create intent at the batch endpoint *)

(** Claim C4, as amended.  A create intent always gets outcome [success],
    reported under the intent's [task_id] as [client_id]; the record it
    inserts is keyed by the next [uuidv4()] value, which is returned as
    [server_id], and not by the id the intent carries.  Applying the same
    intent again inserts one more record, under a later [uuidv4()] value. *)
Theorem create_intent_inserts_fresh_record :
  forall (env : Env) (item : SyncQueueItem) (w : World)
         (ps : list ProcessedItem),
    operation item = "create" ->
    let n := uuid_calls w in
    let st1 := SyncRouter.batchItem env (w, ps) item in
    let st2 := SyncRouter.batchItem env st1 item in
    exists t1 t2 r1 r2,
      snd st1 =
        ps ++ [mkProcessed (task_id item) (uuid_stream env n) StSuccess
                           (Some t1) None] /\
      tasks (fst st1) = tasks w ++ [r1] /\
      row_id r1 = uuid_stream env n /\
      snd st2 =
        snd st1 ++ [mkProcessed (task_id item) (uuid_stream env (n + 2))
                                StSuccess (Some t2) None] /\
      tasks (fst st2) = tasks w ++ [r1; r2] /\
      row_id r2 = uuid_stream env (n + 2) /\
      row_title r2 = row_title r1 /\
      row_description r2 = row_description r1.
Proof.
  intros env item w ps Hop n st1 st2.
  subst st2 st1. unfold SyncRouter.batchItem. rewrite Hop. cbn.
  do 4 eexists.
  split; [reflexivity |].
  split; [reflexivity |].
  split; [reflexivity |].
  split; [subst n; rewrite Nat.add_comm; reflexivity |].
  split; [rewrite <- app_assoc; reflexivity |].
  cbn. subst n. rewrite Nat.add_comm. repeat split.
Qed.

Lemma create_intent_inserts_fresh_record_witness :
  exists t1 t2,
    snd (SyncRouter.batchItem Fixture.env0
           (SyncRouter.batchItem Fixture.env0 (Fixture.emptyWorld, [])
                                 Fixture.createIntent)
           Fixture.createIntent) =
    [mkProcessed "T1" "u0" StSuccess (Some t1) None;
     mkProcessed "T1" "u2" StSuccess (Some t2) None].
Proof.
  destruct (create_intent_inserts_fresh_record Fixture.env0
              Fixture.createIntent Fixture.emptyWorld [] eq_refl)
    as (t1 & t2 & r1 & r2 & H1 & _ & _ & H2 & _).
  exists t1, t2. rewrite H2, H1. reflexivity.
Defined.

(** Claim C4 as stated fails on the empty store: the create intent of T1 is
    stored under u0, not T1, and posting it a second time leaves two
    records, u0 and u2. *)
Lemma create_intent_not_idempotent :
  let w1 := fst (SyncRouter.postBatch Fixture.env0 [Fixture.createIntent]
                                      Fixture.emptyWorld) in
  let w2 := fst (SyncRouter.postBatch Fixture.env0 [Fixture.createIntent] w1) in
  task_id Fixture.createIntent = "T1" /\
  map row_id (tasks w1) = ["u0"] /\
  map row_id (tasks w2) = ["u0"; "u2"] /\
  ~ In "T1" (map row_id (tasks w2)) /\
  tasks w2 <> tasks w1.
Proof.
  cbv zeta. vm_compute.
  repeat split; try discriminate.
  intros [H | [H | []]]; discriminate.
Qed.

(** * Further properties of the services *)

(** ** TaskService: reading back what was written *)

Lemma find_snoc {A : Type} (f : A -> bool) (l : list A) (x : A) :
  find f (l ++ [x]) =
  match find f l with
  | Some y => Some y
  | None => if f x then Some x else None
  end.
Proof.
  induction l as [| a l IH]; simpl; [reflexivity |].
  now destruct (f a).
Qed.

Lemma find_map_same {A : Type} (f : A -> bool) (g : A -> A) (l : list A) :
  (forall a, f (g a) = f a) ->
  find f (map g l) = option_map g (find f l).
Proof.
  intros H. induction l as [| a l IH]; simpl; [reflexivity |].
  rewrite H. now destruct (f a).
Qed.

Lemma getTask_row (taskId : string) (w : World) (t : Task) :
  TaskService.getTask taskId w = Some t ->
  exists r,
    find (visibleAs taskId) (tasks w) = Some r /\
    In r (tasks w) /\
    row_id r = taskId /\ row_is_deleted r = 0 /\
    truthy taskId = true /\
    t = TaskService.mapRowToTask r.
Proof.
  unfold TaskService.getTask. fold (visibleAs taskId).
  destruct (find (visibleAs taskId) (tasks w)) as [r |] eqn:F; [| discriminate].
  destruct (find_some _ _ F) as [Hin Hp].
  unfold visibleAs in Hp. apply andb_true_iff in Hp. destruct Hp as [Hid Hdel].
  apply String.eqb_eq in Hid. apply Z.eqb_eq in Hdel.
  destruct (truthy (row_id r)) eqn:T; [| discriminate].
  intros E. injection E as E. exists r. rewrite Hid in T. auto 10.
Qed.

Lemma mapRowToTask_description (r : TaskRow) :
  description (TaskService.mapRowToTask r) = row_description r.
Proof. cbn. apply orElse_empty. Qed.

(** Property X1.  When the id drawn by [uuidv4()] is a non-empty string no
    task row carries yet, [getTask] on the id of the task [createTask]
    returned gives back exactly that task. *)
Theorem createTask_then_getTask :
  forall (env : Env) (taskData : PartialTask) (w : World),
    truthy (uuid_stream env (uuid_calls w)) = true ->
    (forall r, In r (tasks w) -> row_id r <> uuid_stream env (uuid_calls w)) ->
    TaskService.getTask (id (fst (TaskService.createTask env taskData w)))
                        (snd (TaskService.createTask env taskData w))
    = Some (fst (TaskService.createTask env taskData w)).
Proof.
  intros env taskData w Hne Hfresh. cbn.
  unfold TaskService.getTask. cbn. rewrite find_snoc.
  rewrite find_absent.
  - cbn. rewrite String.eqb_refl. cbn. rewrite Hne.
    unfold TaskService.mapRowToTask. cbn.
    set (d := orElse (p_description taskData) "").
    now rewrite !(orElse_empty d : (if truthy d then d else "") = d).
  - intros r Hr. apply andb_false_iff. left.
    apply String.eqb_neq. now apply Hfresh.
Qed.

Lemma createTask_then_getTask_witness :
  TaskService.getTask "u0"
    (snd (TaskService.createTask Fixture.env0 (Fixture.titleOnly "A")
                                 Fixture.twoIntentsWorld))
  = Some (mkTask "u0" "A" "" false (ValidDate 1000) (ValidDate 1000) false
                 pending None None).
Proof.
  apply (createTask_then_getTask Fixture.env0 (Fixture.titleOnly "A")
                                 Fixture.twoIntentsWorld).
  - reflexivity.
  - intros r [H | [H | []]]; subst r; cbn; discriminate.
Defined.

(** ** TaskService: what a mutation writes *)

Lemma getTask_after_rewrite (taskId : string) (g : TaskRow -> TaskRow)
    (w w' : World) (r : TaskRow) :
  (forall a, row_id (g a) = row_id a /\ row_is_deleted (g a) = row_is_deleted a) ->
  tasks w' = map g (tasks w) ->
  find (visibleAs taskId) (tasks w) = Some r ->
  truthy taskId = true ->
  TaskService.getTask taskId w' = Some (TaskService.mapRowToTask (g r)).
Proof.
  intros Hg Ht Hf Hne. unfold TaskService.getTask. fold (visibleAs taskId).
  rewrite Ht, find_map_same, Hf.
  - cbn. destruct (find_some _ _ Hf) as [_ Hp].
    unfold visibleAs in Hp. apply andb_true_iff in Hp. destruct Hp as [Hid _].
    apply String.eqb_eq in Hid.
    destruct (Hg r) as [Hi _]. now rewrite Hi, Hid, Hne.
  - intros a. unfold visibleAs. destruct (Hg a) as [Hi Hd]. now rewrite Hi, Hd.
Qed.

Lemma updateTask_found (env : Env) (taskId : string) (updates : PartialTask)
    (w : World) (r : TaskRow) :
  find (visibleAs taskId) (tasks w) = Some r ->
  truthy taskId = true ->
  let now := time_stream env (date_calls w) in
  let t := TaskService.mapRowToTask (TaskService.applyUpdates updates now r) in
  let w2 :=
    set_tasks (snd (newDate env w))
      (map (fun a => if String.eqb (row_id a) taskId
                     then TaskService.applyUpdates updates now a else a)
           (tasks w)) in
  TaskService.updateTask env taskId updates w =
  (Some t, TaskService.addToSyncQueue env taskId "update" (asPartial t) w2).
Proof.
  intros Hf Hne now t w2.
  assert (Hid : row_id r = taskId).
  { destruct (find_some _ _ Hf) as [_ Hp]. unfold visibleAs in Hp.
    apply andb_true_iff in Hp. now apply String.eqb_eq. }
  assert (Hget : TaskService.getTask taskId w = Some (TaskService.mapRowToTask r)).
  { unfold TaskService.getTask. fold (visibleAs taskId).
    now rewrite Hf, Hid, Hne. }
  assert (Hget2 : TaskService.getTask taskId w2 = Some t).
  { rewrite (getTask_after_rewrite taskId
               (fun a => if String.eqb (row_id a) taskId
                         then TaskService.applyUpdates updates now a else a)
               w w2 r); auto.
    - subst t. apply String.eqb_eq in Hid. now rewrite Hid.
    - intros a. now destruct (String.eqb (row_id a) taskId). }
  unfold TaskService.updateTask. rewrite Hget.
  unfold newDate. cbv iota beta.
  match goal with
  | |- context [TaskService.getTask taskId ?x] => change x with w2
  end.
  now rewrite Hget2.
Qed.

(** Property X2.  [updateTask] on a visible task returns the stored task
    after the write: the fields named in the update are replaced, every
    other content field, the id, [created_at], [server_id] and
    [last_synced_at] are those of the task before, [updated_at] is the time
    of the call and [sync_status] is pending again. *)
Theorem updateTask_returns_merged_task :
  forall (env : Env) (taskId : string) (updates : PartialTask) (w : World)
         (old : Task),
    TaskService.getTask taskId w = Some old ->
    exists t,
      fst (TaskService.updateTask env taskId updates w) = Some t /\
      id t = taskId /\
      title t = match p_title updates with
                | Some s => s | None => title old end /\
      description t = match p_description updates with
                      | Some d => d | None => description old end /\
      completed t = match p_completed updates with
                    | Some c => c | None => completed old end /\
      created_at t = created_at old /\
      updated_at t = ValidDate (time_stream env (date_calls w)) /\
      is_deleted t = false /\
      sync_status t = pending /\
      server_id t = server_id old /\
      last_synced_at t = last_synced_at old /\
      TaskService.getTask taskId
        (snd (TaskService.updateTask env taskId updates w)) = Some t.
Proof.
  intros env taskId updates w old Hget.
  destruct (getTask_row taskId w old Hget)
    as (r & Hf & _ & Hid & Hdel & Hne & Hold).
  pose proof (updateTask_found env taskId updates w r Hf Hne) as Hup.
  cbv zeta in Hup. rewrite Hup. cbn [fst snd].
  eexists. split; [reflexivity |].
  subst old.
  split; [exact Hid |].
  split; [cbn; now destruct (p_title updates) |].
  split.
  { rewrite !mapRowToTask_description. cbn.
    now destruct (p_description updates). }
  split.
  { cbn. destruct (p_completed updates) as [[|] |]; reflexivity. }
  split; [reflexivity |].
  split; [reflexivity |].
  split; [cbn; now rewrite Hdel |].
  split; [reflexivity |].
  split; [reflexivity |].
  split; [reflexivity |].
  rewrite (getTask_after_rewrite taskId
             (fun a => if String.eqb (row_id a) taskId
                       then TaskService.applyUpdates updates
                              (time_stream env (date_calls w)) a
                       else a) w _ r); auto.
  - apply String.eqb_eq in Hid. now rewrite Hid.
  - intros a. now destruct (String.eqb (row_id a) taskId).
Qed.

Lemma updateTask_returns_merged_task_witness :
  exists t,
    fst (TaskService.updateTask Fixture.env0 "T1" (Fixture.titleOnly "B")
                                Fixture.twoIntentsWorld) = Some t /\
    title t = "B" /\ description t = "" /\ completed t = false /\
    updated_at t = ValidDate 1000 /\ sync_status t = pending.
Proof.
  destruct (updateTask_returns_merged_task Fixture.env0 "T1"
              (Fixture.titleOnly "B") Fixture.twoIntentsWorld
              (TaskService.mapRowToTask Fixture.rowT1) eq_refl)
    as (t & Hr & _ & Ht & Hd & Hc & _ & Hu & _ & Hs & _).
  exists t. repeat split; assumption.
Defined.

Lemma createTask_row (env : Env) (taskData : PartialTask) (w : World) :
  exists r,
    tasks (snd (TaskService.createTask env taskData w)) = tasks w ++ [r] /\
    TaskService.mapRowToTask r = fst (TaskService.createTask env taskData w) /\
    row_is_deleted r = 0 /\ row_sync_status r = pending.
Proof.
  eexists. split; [reflexivity |]. split; [| split; reflexivity].
  unfold TaskService.mapRowToTask. cbn.
  set (d := orElse (p_description taskData) "").
  now rewrite !(orElse_empty d : (if truthy d then d else "") = d).
Qed.

(** Property X3.  Each mutation of the task service that goes through
    appends exactly one row to the sync queue, after the rows already there:
    its operation names the mutation, its [task_id] is the task's id, its
    [retry_count] is 0 with no error message, and its payload is the task as
    returned ([createTask], [updateTask]) or as it was before the deletion
    ([deleteTask]).  An [updateTask] or [deleteTask] that finds no visible
    task leaves the whole world, queue included, as it was. *)
Theorem mutation_enqueues_one_intent :
  forall (env : Env) (w : World),
    (forall d,
       let r := TaskService.createTask env d w in
       exists q,
         sync_queue (snd r) = sync_queue w ++ [q] /\
         q_task_id q = id (fst r) /\ q_operation q = "create" /\
         q_retry_count q = 0 /\ q_error_message q = None /\
         q_data q = asPartial (fst r)) /\
    (forall taskId u,
       let r := TaskService.updateTask env taskId u w in
       match fst r with
       | Some t =>
           exists q,
             sync_queue (snd r) = sync_queue w ++ [q] /\
             q_task_id q = taskId /\ q_operation q = "update" /\
             q_retry_count q = 0 /\ q_error_message q = None /\
             q_data q = asPartial t
       | None => TaskService.getTask taskId w = None /\ snd r = w
       end) /\
    (forall taskId,
       let r := TaskService.deleteTask env taskId w in
       if fst r then
         exists q old,
           TaskService.getTask taskId w = Some old /\
           sync_queue (snd r) = sync_queue w ++ [q] /\
           q_task_id q = taskId /\ q_operation q = "delete" /\
           q_retry_count q = 0 /\ q_error_message q = None /\
           q_data q = asPartial old
       else TaskService.getTask taskId w = None /\ snd r = w).
Proof.
  intros env w. split; [| split].
  - intros d. cbv zeta. eexists. split; [reflexivity |]. cbn. repeat split.
  - intros taskId u. cbv zeta.
    destruct (TaskService.getTask taskId w) as [old |] eqn:G.
    + destruct (getTask_row taskId w old G) as (r & Hf & _ & _ & _ & Hne & _).
      pose proof (updateTask_found env taskId u w r Hf Hne) as Hup.
      cbv zeta in Hup. rewrite Hup. cbn [fst snd].
      eexists. split; [reflexivity |]. cbn. repeat split.
    + unfold TaskService.updateTask. rewrite G. cbn. now split.
  - intros taskId. cbv zeta. unfold TaskService.deleteTask.
    destruct (TaskService.getTask taskId w) as [old |] eqn:G.
    + cbn [fst snd newDate]. cbv iota beta. cbn [fst].
      eexists. exists old. split; [reflexivity |].
      split; [reflexivity |]. cbn. repeat split.
    + cbn. now split.
Qed.

(** ** TaskService: soft deletion and the listings *)

Lemma insert_newest_first_perm (r : TaskRow) (l : list TaskRow) :
  Permutation (TaskService.insert_newest_first r l) (r :: l).
Proof.
  induction l as [| h t IH]; simpl; [reflexivity |].
  destruct (row_created_at h <=? row_created_at r); [reflexivity |].
  rewrite IH. apply perm_swap.
Qed.

Lemma order_newest_first_perm (l : list TaskRow) :
  Permutation (TaskService.order_newest_first l) l.
Proof.
  induction l as [| r l IH]; simpl; [constructor |].
  rewrite insert_newest_first_perm. now constructor.
Qed.

Lemma insert_newest_first_sorted (r : TaskRow) (l : list TaskRow) :
  Sorted newest_first l ->
  Sorted newest_first (TaskService.insert_newest_first r l).
Proof.
  induction l as [| h t IH]; intros Hs; simpl.
  - repeat constructor.
  - destruct (row_created_at h <=? row_created_at r) eqn:E.
    + constructor; [exact Hs |]. constructor. now apply Z.leb_le.
    + inversion Hs as [| ? ? Ht Hh]; subst.
      constructor; [now apply IH |].
      apply Z.leb_gt in E.
      destruct t as [| h' t']; simpl.
      * constructor. unfold newest_first. lia.
      * inversion Hh; subst.
        destruct (row_created_at h' <=? row_created_at r);
          constructor; unfold newest_first in *; lia.
Qed.

Lemma order_newest_first_sorted (l : list TaskRow) :
  Sorted newest_first (TaskService.order_newest_first l).
Proof.
  induction l as [| r l IH]; simpl; [constructor |].
  now apply insert_newest_first_sorted.
Qed.

Lemma getAllTasks_row (w : World) (t : Task) :
  In t (TaskService.getAllTasks w) <->
  exists r, In r (tasks w) /\ row_is_deleted r = 0 /\
            t = TaskService.mapRowToTask r.
Proof.
  unfold TaskService.getAllTasks. rewrite in_map_iff. split.
  - intros (r & Ht & Hr).
    apply (Permutation_in _ (order_newest_first_perm _)) in Hr.
    apply filter_In in Hr. destruct Hr as [Hr Ha].
    exists r. repeat split; auto. now apply Z.eqb_eq.
  - intros (r & Hr & Hd & Ht). exists r. split; [auto |].
    apply (Permutation_in _ (Permutation_sym (order_newest_first_perm _))).
    apply filter_In. split; [exact Hr |]. now apply Z.eqb_eq.
Qed.

Lemma getTasksNeedingSync_row (w : World) (t : Task) :
  In t (TaskService.getTasksNeedingSync w) <->
  exists r, In r (tasks w) /\ row_is_deleted r = 0 /\
            row_sync_status r <> synced /\
            t = TaskService.mapRowToTask r.
Proof.
  unfold TaskService.getTasksNeedingSync. rewrite in_map_iff. split.
  - intros (r & Ht & Hr). apply filter_In in Hr. destruct Hr as [Hr Hn].
    unfold TaskService.needsSync in Hn. apply andb_true_iff in Hn.
    destruct Hn as [Hs Hd]. apply Z.eqb_eq in Hd.
    exists r. repeat split; auto.
    intros E. rewrite E in Hs. discriminate.
  - intros (r & Hr & Hd & Hs & Ht). exists r. split; [auto |].
    apply filter_In. split; [exact Hr |].
    unfold TaskService.needsSync. rewrite Hd.
    destruct (row_sync_status r); try reflexivity. now contradiction Hs.
Qed.

(** Property X4.  A [deleteTask] that answers [true] removes no row: the
    table keeps the same ids, titles, descriptions, completed flags and
    creation times in the same order.  Every row carrying the id is flagged
    deleted and pending with [updated_at] the time of the call, rows of other
    tasks are untouched, and from then on the id is missing from [getTask],
    [getAllTasks] and [getTasksNeedingSync]. *)
Theorem deleteTask_soft_deletes :
  forall (env : Env) (taskId : string) (w : World),
    fst (TaskService.deleteTask env taskId w) = true ->
    let w' := snd (TaskService.deleteTask env taskId w) in
    map (fun r => (row_id r, row_title r, row_description r, row_completed r,
                   row_created_at r)) (tasks w') =
    map (fun r => (row_id r, row_title r, row_description r, row_completed r,
                   row_created_at r)) (tasks w) /\
    (forall r, In r (tasks w') -> row_id r = taskId ->
       row_is_deleted r = 1 /\ row_sync_status r = pending /\
       row_updated_at r = time_stream env (date_calls w)) /\
    (forall r, row_id r <> taskId -> (In r (tasks w') <-> In r (tasks w))) /\
    TaskService.getTask taskId w' = None /\
    (forall t, In t (TaskService.getAllTasks w') -> id t <> taskId) /\
    (forall t, In t (TaskService.getTasksNeedingSync w') -> id t <> taskId).
Proof.
  intros env taskId w Hok w'.
  assert (Ht : tasks w' =
               map (fun r => if String.eqb (row_id r) taskId
                             then TaskService.markDeleted
                                    (time_stream env (date_calls w)) r
                             else r) (tasks w)).
  { subst w'. revert Hok. unfold TaskService.deleteTask.
    destruct (TaskService.getTask taskId w); [reflexivity | discriminate]. }
  assert (Hmine : forall r, In r (tasks w') -> row_id r = taskId ->
            row_is_deleted r = 1 /\ row_sync_status r = pending /\
            row_updated_at r = time_stream env (date_calls w)).
  { intros r Hr Hid. rewrite Ht in Hr. apply in_map_iff in Hr.
    destruct Hr as (r0 & Hr0 & _).
    destruct (String.eqb (row_id r0) taskId) eqn:E.
    - subst r. cbn. auto.
    - subst r. apply String.eqb_neq in E. contradiction. }
  clearbody w'.
  split.
  { rewrite Ht, map_map. apply map_ext. intros r.
    now destruct (String.eqb (row_id r) taskId). }
  split; [exact Hmine |].
  split.
  { intros r Hid. rewrite Ht, in_map_iff. split.
    - intros (r0 & Hr0 & Hin).
      destruct (String.eqb (row_id r0) taskId) eqn:E.
      + subst r. cbn in Hid. apply String.eqb_eq in E. contradiction.
      + now subst r.
    - intros Hin. exists r. split; [| exact Hin].
      apply String.eqb_neq in Hid. now rewrite Hid. }
  split.
  { apply getTask_hidden. intros r Hr Hid.
    destruct (Hmine r Hr Hid) as [Hd _]. rewrite Hd. discriminate. }
  split.
  - intros t Hin Hid. apply getAllTasks_row in Hin.
    destruct Hin as (r & Hr & Hd & Heq). subst t. cbn in Hid.
    destruct (Hmine r Hr Hid) as [Hd' _]. congruence.
  - intros t Hin Hid. apply getTasksNeedingSync_row in Hin.
    destruct Hin as (r & Hr & Hd & _ & Heq). subst t. cbn in Hid.
    destruct (Hmine r Hr Hid) as [Hd' _]. congruence.
Qed.

Lemma deleteTask_soft_deletes_witness :
  let w' := snd (TaskService.deleteTask Fixture.env0 "T1"
                                        Fixture.twoIntentsWorld) in
  map row_id (tasks w') = ["T1"; "T2"] /\
  TaskService.getTask "T1" w' = None /\
  map id (TaskService.getAllTasks w') = ["T2"].
Proof.
  cbv zeta.
  destruct (deleteTask_soft_deletes Fixture.env0 "T1" Fixture.twoIntentsWorld
              eq_refl) as (_ & _ & _ & Hg & _).
  split; [reflexivity |]. split; [exact Hg | reflexivity].
Defined.

(** Property X5.  [getAllTasks] lists every row that is not soft-deleted,
    each exactly once, newest [created_at] first; no listed task is deleted,
    and a task [getTask] returns is always in the list. *)
Theorem getAllTasks_lists_active_newest_first :
  forall w : World,
    (exists rows,
        TaskService.getAllTasks w = map TaskService.mapRowToTask rows /\
        Permutation rows (filter TaskService.isActive (tasks w)) /\
        Sorted newest_first rows) /\
    Forall (fun t => is_deleted t = false) (TaskService.getAllTasks w) /\
    (forall taskId t,
        TaskService.getTask taskId w = Some t ->
        In t (TaskService.getAllTasks w)).
Proof.
  intros w. split; [| split].
  - exists (TaskService.order_newest_first
              (filter TaskService.isActive (tasks w))).
    split; [reflexivity |].
    split; [apply order_newest_first_perm | apply order_newest_first_sorted].
  - apply Forall_forall. intros t Hin. apply getAllTasks_row in Hin.
    destruct Hin as (r & _ & Hd & Heq). subst t. cbn. now rewrite Hd.
  - intros taskId t Hget.
    destruct (getTask_row taskId w t Hget) as (r & _ & Hin & _ & Hd & _ & Heq).
    apply getAllTasks_row. now exists r.
Qed.

(** Property X6.  [getTasksNeedingSync] returns only tasks that are not
    deleted and whose [sync_status] is pending or error, all of them also
    listed by [getAllTasks]; the task [createTask] has just returned is among
    them. *)
Theorem getTasksNeedingSync_lists_unsynced :
  forall w : World,
    Forall (fun t => is_deleted t = false /\ sync_status t <> synced)
           (TaskService.getTasksNeedingSync w) /\
    (forall t, In t (TaskService.getTasksNeedingSync w) ->
               In t (TaskService.getAllTasks w)) /\
    (forall env d,
        In (fst (TaskService.createTask env d w))
           (TaskService.getTasksNeedingSync
              (snd (TaskService.createTask env d w)))).
Proof.
  intros w. split; [| split].
  - apply Forall_forall. intros t Hin. apply getTasksNeedingSync_row in Hin.
    destruct Hin as (r & _ & Hd & Hs & Heq). subst t. cbn.
    rewrite Hd. now split.
  - intros t Hin. apply getTasksNeedingSync_row in Hin.
    destruct Hin as (r & Hr & Hd & _ & Heq).
    apply getAllTasks_row. now exists r.
  - intros env d.
    destruct (createTask_row env d w) as (r & Ht & Hm & Hd & Hs).
    apply getTasksNeedingSync_row. exists r.
    rewrite Ht. repeat split; auto.
    + apply in_or_app. right. now left.
    + rewrite Hs. discriminate.
Qed.

(** ** SyncService: what a pass can and cannot write *)

Lemma handleSyncError_user_columns cfg item msg w :
  map row_user_columns (tasks (SyncService.handleSyncError cfg item msg w)) =
  map row_user_columns (tasks w).
Proof.
  unfold SyncService.handleSyncError.
  destruct (maxRetries cfg <=? retry_count item + 1); [| reflexivity].
  cbn. rewrite map_map. apply map_ext. intros r.
  now destruct (String.eqb (row_id r) (task_id item)).
Qed.

Lemma updateSyncStatus_user_columns env taskId st serverData w :
  map row_user_columns
      (tasks (SyncService.updateSyncStatus env taskId st serverData w)) =
  map row_user_columns (tasks w).
Proof.
  cbn. rewrite map_map. apply map_ext. intros r.
  now destruct (String.eqb (row_id r) taskId).
Qed.

Lemma handleProcessed_user_columns env cfg batch st p :
  map row_user_columns
      (tasks (fst (SyncService.handleProcessed env cfg batch st p))) =
  map row_user_columns (tasks (fst st)) /\
  uuid_calls (fst (SyncService.handleProcessed env cfg batch st p)) =
  uuid_calls (fst st).
Proof.
  destruct st as [w res]. unfold SyncService.handleProcessed.
  destruct (status p).
  - cbn [fst]. split; [| reflexivity].
    apply (updateSyncStatus_user_columns env (client_id p) synced _ w).
  - destruct (TaskService.getTask (client_id p) w); [| now split].
    destruct (resolved_data p); [| now split].
    cbn [fst]. split; [| reflexivity].
    apply (updateSyncStatus_user_columns env (client_id p) synced _ w).
  - cbn [fst]. destruct (find _ batch); cbn; [| now split].
    split; [apply handleSyncError_user_columns |].
    apply handleSyncError_counters.
Qed.

Lemma failItem_user_columns env cfg msg st item :
  map row_user_columns (tasks (fst (SyncService.failItem env cfg msg st item)))
  = map row_user_columns (tasks (fst st)) /\
  uuid_calls (fst (SyncService.failItem env cfg msg st item)) =
  uuid_calls (fst st).
Proof.
  destruct st as [w res]. cbn.
  split; [apply handleSyncError_user_columns | apply handleSyncError_counters].
Qed.

Lemma syncBatch_user_columns env cfg remote i items st :
  map row_user_columns
      (tasks (fst (SyncService.syncBatch env cfg remote i items st))) =
  map row_user_columns (tasks (fst st)) /\
  uuid_calls (fst (SyncService.syncBatch env cfg remote i items st)) =
  uuid_calls (fst st).
Proof.
  destruct st as [w res]. unfold SyncService.syncBatch, SyncService.processBatch.
  cbn -[SyncService.slice].
  destruct (post_batch remote i _) as [msg | ps].
  - apply (fold_left_invariant (SyncService.failItem env cfg msg)
             (fun s => map row_user_columns (tasks (fst s)) =
                       map row_user_columns (tasks w) /\
                       uuid_calls (fst s) = uuid_calls w)); [| now split].
    intros a b [Ha Hb].
    destruct (failItem_user_columns env cfg msg a b) as [H1 H2].
    split; congruence.
  - apply (fold_left_invariant (SyncService.handleProcessed env cfg _)
             (fun s => map row_user_columns (tasks (fst s)) =
                       map row_user_columns (tasks w) /\
                       uuid_calls (fst s) = uuid_calls w)); [| now split].
    intros a b [Ha Hb].
    destruct (handleProcessed_user_columns env cfg
                (SyncService.slice i (i + batchSize cfg) items) a b)
      as [H1 H2].
    split; congruence.
Qed.

Lemma syncLoop_invariant env cfg remote items (P : World * SyncResult -> Prop) :
  (forall i st, P st -> P (SyncService.syncBatch env cfg remote i items st)) ->
  forall fuel i st st',
    P st ->
    SyncService.syncLoop fuel env cfg remote i items st = Some st' ->
    P st'.
Proof.
  intros Hstep fuel.
  induction fuel as [| fuel IH]; intros i st st' Hst Hrun; simpl in Hrun;
    destruct (i <? List.length items)%nat; try discriminate.
  - now inversion Hrun; subst.
  - eapply IH; [| exact Hrun]. now apply Hstep.
  - now inversion Hrun; subst.
Qed.

Lemma sync_cases env cfg remote w st' :
  SyncService.sync env cfg remote w = Some st' ->
  (reachable remote = false /\
   st' = (snd (newDate env w),
          SyncService.push_error
            (SyncService.set_success SyncService.initialResult false)
            (mkSyncError "N/A" "connectivity" "Server is not reachable"
                         (ValidDate (fst (newDate env w)))))) \/
  (reachable remote = true /\ st' = (w, SyncService.initialResult)) \/
  (reachable remote = true /\
   SyncService.syncLoop (List.length (SyncService.getSyncQueueItems w))
     env cfg remote 0 (SyncService.getSyncQueueItems w)
     (w, SyncService.initialResult) = Some st').
Proof.
  unfold SyncService.sync, SyncService.checkConnectivity.
  destruct (reachable remote); cbn [negb].
  - destruct (List.length (SyncService.getSyncQueueItems w) =? 0)%nat;
      intros H; [injection H as <- | ]; auto.
  - cbn. intros H. injection H as <-. now left.
Qed.

(** Where the engine's writes end.  [sync] posts to [apiUrl]; when that is
    the same process on the same database, the batch endpoint serves the
    request on the local tables while the pass is running: for the create
    intent of T1 it adds the task row u0, queues the intent u1 and draws two
    ids.  Those writes are the endpoint's; the statements below are about the
    writes of the engine, and a [Remote] stands for an authority that leaves
    the local tables alone. *)
Lemma endpoint_on_same_store_writes_it :
  let w' := fst (SyncRouter.postBatch Fixture.env0
                   [SyncService.rowToItem Fixture.qCreateT1]
                   Fixture.conflictWorld) in
  map row_id (tasks w') = ["T1"; "u0"] /\
  map q_id (sync_queue w') = ["q1"; "u1"] /\
  uuid_calls w' = 2%nat.
Proof. cbv zeta. repeat split. Qed.

(** Property X7.  The engine writes only sync metadata.  Handling the answer
    to a batch, be it the outcomes of a response or the failure of the
    request, in whatever state the store is when the answer arrives, adds or
    drops no task row, keeps the id, title, description, completed flag, both
    timestamps and the deleted flag of every row, and draws no id from
    [uuidv4()].  Hence the same holds from start to end of a whole pass when
    the remote is an authority of its own, one that does not write the local
    tables while it serves the requests. *)
Theorem sync_writes_only_sync_metadata :
  forall (env : Env) (cfg : Config),
    (forall (batch : list SyncQueueItem) (ps : list ProcessedItem)
            (w : World) (res : SyncResult),
        let st' :=
          fold_left (SyncService.handleProcessed env cfg batch) ps (w, res) in
        map row_user_columns (tasks (fst st')) =
          map row_user_columns (tasks w) /\
        uuid_calls (fst st') = uuid_calls w) /\
    (forall (batch : list SyncQueueItem) (msg : string)
            (w : World) (res : SyncResult),
        let st' :=
          fold_left (SyncService.failItem env cfg msg) batch (w, res) in
        map row_user_columns (tasks (fst st')) =
          map row_user_columns (tasks w) /\
        uuid_calls (fst st') = uuid_calls w) /\
    (forall (remote : Remote) (w w' : World) (res : SyncResult),
        SyncService.sync env cfg remote w = Some (w', res) ->
        map row_user_columns (tasks w') = map row_user_columns (tasks w) /\
        uuid_calls w' = uuid_calls w).
Proof.
  intros env cfg. split; [| split].
  - intros batch ps w res. cbv zeta.
    apply (fold_left_invariant (SyncService.handleProcessed env cfg batch)
             (fun s => map row_user_columns (tasks (fst s)) =
                       map row_user_columns (tasks w) /\
                       uuid_calls (fst s) = uuid_calls w)); [| now split].
    intros a b [Ha Hb].
    destruct (handleProcessed_user_columns env cfg batch a b) as [H1 H2].
    split; congruence.
  - intros batch msg w res. cbv zeta.
    apply (fold_left_invariant (SyncService.failItem env cfg msg)
             (fun s => map row_user_columns (tasks (fst s)) =
                       map row_user_columns (tasks w) /\
                       uuid_calls (fst s) = uuid_calls w)); [| now split].
    intros a b [Ha Hb].
    destruct (failItem_user_columns env cfg msg a b) as [H1 H2].
    split; congruence.
  - intros remote w w' res Hrun.
    destruct (sync_cases env cfg remote w (w', res) Hrun)
      as [[_ E] | [[_ E] | [_ Hloop]]].
    + injection E as -> _. now split.
    + injection E as -> _. now split.
    + set (P := fun s : World * SyncResult =>
                  map row_user_columns (tasks (fst s)) =
                  map row_user_columns (tasks w) /\
                  uuid_calls (fst s) = uuid_calls w).
      change (P (w', res)).
      eapply (syncLoop_invariant env cfg remote _ P); [| | exact Hloop];
        [| now split].
      intros i st [Ha Hb].
      destruct (syncBatch_user_columns env cfg remote i
                  (SyncService.getSyncQueueItems w) st) as [H1 H2].
      split; congruence.
Qed.

(** A conflict answered by a separate authority: the pass ends with the
    content of T1 as it was. *)
Lemma sync_writes_only_sync_metadata_witness :
  exists w' res,
    SyncService.sync Fixture.env0 Fixture.cfg0 Fixture.conflictRemote
                     Fixture.conflictWorld = Some (w', res) /\
    map row_user_columns (tasks w') = [("T1", "A", "", 0, 100, 100, 0)].
Proof.
  destruct (SyncService.sync Fixture.env0 Fixture.cfg0 Fixture.conflictRemote
                             Fixture.conflictWorld) as [[w' res] |] eqn:E;
    [| vm_compute in E; discriminate].
  exists w', res. split; [reflexivity |].
  destruct (proj2 (proj2 (sync_writes_only_sync_metadata Fixture.env0
                            Fixture.cfg0))
              Fixture.conflictRemote Fixture.conflictWorld w' res E)
    as [H _].
  rewrite H. reflexivity.
Defined.

Lemma queue_within_refl (l : list QueueRow) : queue_within l l.
Proof. intros q Hq. now exists q. Qed.

Lemma queue_within_trans (a b c : list QueueRow) :
  queue_within a b -> queue_within b c -> queue_within a c.
Proof.
  intros Hab Hbc q'' Hq''.
  destruct (Hbc q'' Hq'') as (q' & Hq' & E').
  destruct (Hab q' Hq') as (q & Hq & E).
  exists q. split; [exact Hq | congruence].
Qed.

Lemma handleSyncError_queue_within cfg item msg w :
  queue_within (sync_queue w)
               (sync_queue (SyncService.handleSyncError cfg item msg w)).
Proof.
  rewrite handleSyncError_queue. intros q' Hq'.
  apply in_map_iff in Hq'. destruct Hq' as (q & Hq & Hin).
  exists q. split; [exact Hin |].
  destruct (String.eqb (q_id q) (item_id item)); now subst q'.
Qed.

Lemma removeFromSyncQueue_queue_within taskId w :
  queue_within (sync_queue w)
               (sync_queue (SyncService.removeFromSyncQueue taskId w)).
Proof.
  intros q' Hq'. apply removeFromSyncQueue_keeps in Hq'.
  exists q'. now split.
Qed.

Lemma handleProcessed_queue_within env cfg batch st p :
  queue_within (sync_queue (fst st))
    (sync_queue (fst (SyncService.handleProcessed env cfg batch st p))).
Proof.
  destruct st as [w res]. unfold SyncService.handleProcessed.
  destruct (status p).
  - cbn [fst]. apply (removeFromSyncQueue_queue_within (client_id p)
                        (SyncService.updateSyncStatus env (client_id p) synced
                           _ w)).
  - destruct (TaskService.getTask (client_id p) w);
      [| apply queue_within_refl].
    destruct (resolved_data p); [| apply queue_within_refl].
    cbn [fst]. intros q' Hq'. cbn in Hq'. apply filter_In in Hq'.
    exists q'. now split.
  - cbn [fst]. destruct (find _ batch); cbn; [| apply queue_within_refl].
    apply handleSyncError_queue_within.
Qed.

Lemma syncBatch_queue_within env cfg remote i items st :
  queue_within (sync_queue (fst st))
    (sync_queue (fst (SyncService.syncBatch env cfg remote i items st))).
Proof.
  destruct st as [w res]. unfold SyncService.syncBatch, SyncService.processBatch.
  cbn -[SyncService.slice].
  destruct (post_batch remote i _) as [msg | ps].
  - apply (fold_left_invariant (SyncService.failItem env cfg msg)
             (fun s => queue_within (sync_queue w) (sync_queue (fst s))));
      [| apply queue_within_refl].
    intros [a ra] b Ha. eapply queue_within_trans; [exact Ha |].
    cbn. apply handleSyncError_queue_within.
  - apply (fold_left_invariant (SyncService.handleProcessed env cfg _)
             (fun s => queue_within (sync_queue w) (sync_queue (fst s))));
      [| apply queue_within_refl].
    intros a b Ha. eapply queue_within_trans; [exact Ha |].
    apply handleProcessed_queue_within.
Qed.

(** Property X8.  The engine never adds an intent.  After it has handled
    the answer to a batch, outcomes or request failure alike, every row of
    the queue is a row that was there when the answer arrived, with the same
    id, task, operation, payload and enqueue time; only its retry count and
    error message may differ.  Hence every row queued at the end of a whole
    pass was queued at its start when the remote is an authority of its own,
    one that does not write the local tables while it serves the requests. *)
Theorem sync_never_enqueues :
  forall (env : Env) (cfg : Config),
    (forall (batch : list SyncQueueItem) (ps : list ProcessedItem)
            (w : World) (res : SyncResult),
        queue_within (sync_queue w)
          (sync_queue
             (fst (fold_left (SyncService.handleProcessed env cfg batch) ps
                             (w, res))))) /\
    (forall (batch : list SyncQueueItem) (msg : string)
            (w : World) (res : SyncResult),
        queue_within (sync_queue w)
          (sync_queue
             (fst (fold_left (SyncService.failItem env cfg msg) batch
                             (w, res))))) /\
    (forall (remote : Remote) (w w' : World) (res : SyncResult),
        SyncService.sync env cfg remote w = Some (w', res) ->
        queue_within (sync_queue w) (sync_queue w')).
Proof.
  intros env cfg. split; [| split].
  - intros batch ps w res.
    apply (fold_left_invariant (SyncService.handleProcessed env cfg batch)
             (fun s => queue_within (sync_queue w) (sync_queue (fst s))));
      [| apply queue_within_refl].
    intros a b Ha. eapply queue_within_trans; [exact Ha |].
    apply handleProcessed_queue_within.
  - intros batch msg w res.
    apply (fold_left_invariant (SyncService.failItem env cfg msg)
             (fun s => queue_within (sync_queue w) (sync_queue (fst s))));
      [| apply queue_within_refl].
    intros [a ra] b Ha. eapply queue_within_trans; [exact Ha |].
    cbn. apply handleSyncError_queue_within.
  - intros remote w w' res Hrun.
    destruct (sync_cases env cfg remote w (w', res) Hrun)
      as [[_ E] | [[_ E] | [_ Hloop]]].
    + injection E as -> _. apply queue_within_refl.
    + injection E as -> _. apply queue_within_refl.
    + set (P := fun s : World * SyncResult =>
                  queue_within (sync_queue w) (sync_queue (fst s))).
      change (P (w', res)).
      eapply (syncLoop_invariant env cfg remote _ P); [| | exact Hloop];
        [| apply queue_within_refl].
      intros i st Hst. eapply queue_within_trans; [exact Hst |].
      apply syncBatch_queue_within.
Qed.

Lemma sync_never_enqueues_witness :
  exists w' res,
    SyncService.sync Fixture.env0 (mkConfig 1 3) Fixture.flakyRemote
                     Fixture.twoIntentsWorld = Some (w', res) /\
    queue_within (sync_queue Fixture.twoIntentsWorld) (sync_queue w').
Proof.
  destruct (SyncService.sync Fixture.env0 (mkConfig 1 3) Fixture.flakyRemote
                             Fixture.twoIntentsWorld) as [[w' res] |] eqn:E;
    [| vm_compute in E; discriminate].
  exists w', res. split; [reflexivity |].
  exact (proj2 (proj2 (sync_never_enqueues Fixture.env0 (mkConfig 1 3)))
           Fixture.flakyRemote Fixture.twoIntentsWorld w' res E).
Defined.

Lemma handleProcessed_fold_success env cfg batch ps st :
  success (snd (fold_left (SyncService.handleProcessed env cfg batch) ps st)) =
  success (snd st).
Proof.
  apply (fold_left_invariant (SyncService.handleProcessed env cfg batch)
           (fun s => success (snd s) = success (snd st))); [| reflexivity].
  intros a b Ha. now rewrite handleProcessed_success.
Qed.

(** Property X9.  The [success] flag only reports transport: when the remote
    is reachable and answers every batch request, the pass ends with
    [success = true] whatever the outcomes in the answers are, rejected
    intents included. *)
Theorem sync_success_ignores_item_errors :
  forall (env : Env) (cfg : Config) (remote : Remote) (w w' : World)
         (res : SyncResult),
    reachable remote = true ->
    always_answers remote ->
    SyncService.sync env cfg remote w = Some (w', res) ->
    success res = true.
Proof.
  intros env cfg remote w w' res Hon Hans Hrun.
  destruct (sync_cases env cfg remote w (w', res) Hrun)
    as [[Hoff _] | [[_ E] | [_ Hloop]]].
  - congruence.
  - now injection E as _ ->.
  - set (P := fun s : World * SyncResult => success (snd s) = true).
    change (P (w', res)).
    eapply (syncLoop_invariant env cfg remote _ P); [| | exact Hloop];
      [| reflexivity].
    intros i [w0 r0] Hst. unfold P in *.
    unfold SyncService.syncBatch, SyncService.processBatch.
    cbn -[SyncService.slice].
    destruct (Hans i (SyncService.slice i (i + batchSize cfg)
                        (SyncService.getSyncQueueItems w))) as [ps Hps].
    rewrite Hps. now rewrite handleProcessed_fold_success.
Qed.

(** Every intent is rejected by the remote, yet the pass reports success. *)
Lemma sync_success_ignores_item_errors_witness :
  exists w' res,
    SyncService.sync Fixture.env0 Fixture.cfg0 Fixture.rejectingRemote
                     Fixture.twoIntentsWorld = Some (w', res) /\
    failed_items res = 3 /\ synced_items res = 0 /\ success res = true.
Proof.
  destruct (SyncService.sync Fixture.env0 Fixture.cfg0 Fixture.rejectingRemote
                             Fixture.twoIntentsWorld) as [[w' res] |] eqn:E;
    [| vm_compute in E; discriminate].
  exists w', res. split; [reflexivity |].
  assert (Hans : always_answers Fixture.rejectingRemote)
    by (intros i batch; eexists; reflexivity).
  pose proof (sync_success_ignores_item_errors Fixture.env0 Fixture.cfg0
                Fixture.rejectingRemote Fixture.twoIntentsWorld w' res
                eq_refl Hans E) as Hs.
  split; [| split; [| exact Hs]];
    vm_compute in E; injection E as _ <-; reflexivity.
Defined.

(** ** SyncService: a pass in which the remote accepts everything *)

Lemma firstn_plus {A : Type} (i n : nat) (l : list A) :
  firstn (i + n) l = firstn i l ++ firstn n (skipn i l).
Proof.
  revert l. induction i as [| i IH]; intros l; [reflexivity |].
  destruct l as [| a l]; simpl.
  - now rewrite firstn_nil.
  - now rewrite IH.
Qed.

Lemma all_synced_step env cfg batch w0 done st p :
  status p = StSuccess ->
  all_synced w0 done st ->
  all_synced w0 (done ++ [client_id p])
             (SyncService.handleProcessed env cfg batch st p).
Proof.
  intros Hp (Hq & Hr & Hres). destruct st as [w res]. cbn [fst snd] in *.
  unfold SyncService.handleProcessed. rewrite Hp.
  split; [| split]; cbn [fst snd].
  - intros q Hin. apply removeFromSyncQueue_keeps in Hin.
    destruct Hin as [Hin Hne]. cbn in Hin.
    destruct (Hq q Hin) as [H0 Hnot].
    split; [exact H0 |]. intros Hd. apply in_app_or in Hd.
    destruct Hd as [Hd | [Hd | []]]; [now apply Hnot | now apply Hne].
  - intros r Hin Hd. cbn in Hin. apply in_map_iff in Hin.
    destruct Hin as (r0 & Hr0 & Hin0).
    destruct (String.eqb (row_id r0) (client_id p)) eqn:E.
    + subst r. cbn. split; [reflexivity | discriminate].
    + subst r. apply String.eqb_neq in E.
      apply in_app_or in Hd. destruct Hd as [Hd | [Hd | []]].
      * now apply Hr.
      * now contradiction E.
  - subst res. unfold SyncService.incr_synced. cbn.
    rewrite length_app. cbn. f_equal. lia.
Qed.

Lemma all_synced_fold env cfg batch w0 (ps : list ProcessedItem) :
  Forall (fun p => status p = StSuccess) ps ->
  forall done st,
    all_synced w0 done st ->
    all_synced w0 (done ++ map client_id ps)
               (fold_left (SyncService.handleProcessed env cfg batch) ps st).
Proof.
  induction 1 as [| p ps Hp _ IH]; intros done st Hst; simpl.
  - now rewrite app_nil_r.
  - replace (done ++ client_id p :: map client_id ps)
      with ((done ++ [client_id p]) ++ map client_id ps)
      by (now rewrite <- app_assoc).
    apply IH. now apply all_synced_step.
Qed.

Lemma all_synced_batch env cfg remote w0 i items st :
  accepts_all remote ->
  all_synced w0 (map task_id (firstn i items)) st ->
  all_synced w0 (map task_id (firstn (i + batchSize cfg) items))
             (SyncService.syncBatch env cfg remote i items st).
Proof.
  intros Hacc Hst. destruct st as [w res].
  unfold SyncService.syncBatch, SyncService.processBatch.
  cbn -[SyncService.slice].
  destruct (Hacc i (SyncService.slice i (i + batchSize cfg) items))
    as (ps & Hps & Hall & Hids).
  rewrite Hps, firstn_plus, map_app, <- slice_window, <- Hids.
  apply all_synced_fold; [exact Hall |].
  destruct Hst as (Hq & Hr & Hres). now split; [| split].
Qed.

Lemma all_synced_loop env cfg remote w0 (items : list SyncQueueItem) :
  (0 < batchSize cfg)%nat ->
  accepts_all remote ->
  forall fuel i st,
    (List.length items - i <= fuel)%nat ->
    all_synced w0 (map task_id (firstn i items)) st ->
    exists st',
      SyncService.syncLoop fuel env cfg remote i items st = Some st' /\
      all_synced w0 (map task_id items) st'.
Proof.
  intros Hbs Hacc fuel.
  induction fuel as [| fuel IH]; intros i st Hfuel Hst; simpl;
    destruct (i <? List.length items)%nat eqn:E.
  - apply Nat.ltb_lt in E. lia.
  - apply Nat.ltb_ge in E. exists st. split; [reflexivity |].
    now rewrite firstn_all2 in Hst.
  - apply Nat.ltb_lt in E. apply IH; [lia |].
    now apply all_synced_batch.
  - apply Nat.ltb_ge in E. exists st. split; [reflexivity |].
    now rewrite firstn_all2 in Hst.
Qed.

Lemma queued_task_is_drained (w : World) (q : QueueRow) :
  In q (sync_queue w) ->
  In (q_task_id q) (map task_id (SyncService.getSyncQueueItems w)).
Proof.
  intros Hq. unfold SyncService.getSyncQueueItems. rewrite map_map.
  apply in_map_iff. exists q. split; [reflexivity |].
  apply (Permutation_in _ (Permutation_sym (order_by_created_at_perm _)) Hq).
Qed.

Lemma success_fold_effect env cfg batch (ps : list ProcessedItem) :
  Forall (fun p => status p = StSuccess) ps ->
  forall w res,
    let st' :=
      fold_left (SyncService.handleProcessed env cfg batch) ps (w, res) in
    (forall q, In q (sync_queue (fst st')) <->
               In q (sync_queue w) /\ ~ In (q_task_id q) (map client_id ps)) /\
    (forall r', In r' (tasks (fst st')) ->
       exists r,
         In r (tasks w) /\ row_id r = row_id r' /\
         (row_sync_status r = synced /\ row_last_synced_at r <> None ->
          row_sync_status r' = synced /\ row_last_synced_at r' <> None) /\
         (In (row_id r') (map client_id ps) ->
          row_sync_status r' = synced /\ row_last_synced_at r' <> None)) /\
    snd st' =
      mkResult (success res)
               (synced_items res + Z.of_nat (List.length ps))
               (failed_items res) (errors res).
Proof.
  induction 1 as [| p ps Hp _ IH]; intros w res; cbn [fold_left].
  - cbv zeta. cbn. split; [| split].
    + intros q. split; [intros Hq; split; auto | now intros [Hq _]].
    + intros r' Hr'. exists r'. split; [exact Hr' |].
      split; [reflexivity |]. split; [auto | intros []].
    + destruct res. cbn. f_equal. lia.
  - assert (Hstep :
      SyncService.handleProcessed env cfg batch (w, res) p =
      (SyncService.removeFromSyncQueue (client_id p)
         (SyncService.updateSyncStatus env (client_id p) synced
            (Some (serverIdOnly (pi_server_id p))) w),
       SyncService.incr_synced res)).
    { unfold SyncService.handleProcessed. now rewrite Hp. }
    rewrite Hstep.
    match goal with
    | |- context [fold_left _ ps (?w1, ?r1)] =>
        destruct (IH w1 r1) as (Hq & Ht & Hres)
    end.
    cbv zeta in Hq, Ht, Hres. cbv zeta.
    split; [| split].
    + intros q. rewrite Hq, removeFromSyncQueue_keeps. cbn.
      intuition congruence.
    + intros r' Hr'. destruct (Ht r' Hr') as (r1 & Hr1 & Hid1 & Hkeep & Hset).
      cbn in Hr1. apply in_map_iff in Hr1. destruct Hr1 as (r & Hg & Hr).
      exists r. split; [exact Hr |].
      destruct (String.eqb (row_id r) (client_id p)) eqn:E.
      * subst r1. cbn in Hid1, Hkeep.
        assert (Hnow : row_sync_status r' = synced /\
                       row_last_synced_at r' <> None)
          by (apply Hkeep; split; [reflexivity | discriminate]).
        repeat split; auto; apply Hnow.
      * subst r1. split; [exact Hid1 |]. split; [exact Hkeep |].
        intros [Ec | Hin]; [| now apply Hset].
        apply String.eqb_neq in E. rewrite Hid1 in E. now contradiction E.
    + rewrite Hres. cbn. f_equal. lia.
Qed.

(** Property X10.  Handling a response that carries one success outcome per
    intent of the batch, in whatever state the store is when it arrives,
    removes the queue rows of the batch's tasks and no other row, leaves every
    row of those tasks synced with a [last_synced_at], and adds the batch's
    size to [synced_items] and nothing else to the result.  Hence, when the
    remote is reachable, answers every batch that way and is an authority of
    its own, one that does not write the local tables while it serves the
    requests, a pass with a positive batch size empties the queue: it returns
    [success = true], [synced_items] equal to the number of intents that were
    queued, no failure and no error entry; afterwards [getPendingSyncCount]
    is 0 and none of the tasks an intent referred to is listed by
    [getTasksNeedingSync]. *)
Theorem sync_accepting_remote_drains_queue :
  forall (env : Env) (cfg : Config),
    (forall (batch : list SyncQueueItem) (ps : list ProcessedItem)
            (w : World) (res : SyncResult),
        Forall (fun p => status p = StSuccess) ps ->
        map client_id ps = map task_id batch ->
        let st' :=
          fold_left (SyncService.handleProcessed env cfg batch) ps (w, res) in
        (forall q, In q (sync_queue (fst st')) <->
                   In q (sync_queue w) /\
                   ~ In (q_task_id q) (map task_id batch)) /\
        (forall r, In r (tasks (fst st')) ->
                   In (row_id r) (map task_id batch) ->
                   row_sync_status r = synced /\
                   row_last_synced_at r <> None) /\
        snd st' =
          mkResult (success res)
                   (synced_items res + Z.of_nat (List.length batch))
                   (failed_items res) (errors res)) /\
    (forall (remote : Remote) (w : World),
        reachable remote = true ->
        (0 < batchSize cfg)%nat ->
        accepts_all remote ->
        exists w',
          SyncService.sync env cfg remote w =
            Some (w', mkResult true (Z.of_nat (List.length (sync_queue w)))
                               0 []) /\
          sync_queue w' = [] /\
          SyncService.getPendingSyncCount w' = 0 /\
          (forall q r, In q (sync_queue w) -> In r (tasks w') ->
                       row_id r = q_task_id q ->
                       row_sync_status r = synced /\
                       row_last_synced_at r <> None) /\
          (forall q t, In q (sync_queue w) ->
                       In t (TaskService.getTasksNeedingSync w') ->
                       id t <> q_task_id q)).
Proof.
  intros env cfg. split.
  { intros batch ps w res Hall Hids.
    destruct (success_fold_effect env cfg batch ps Hall w res)
      as (Hq & Ht & Hres).
    cbv zeta in Hq, Ht, Hres. cbv zeta. rewrite <- Hids.
    split; [exact Hq |]. split.
    - intros r Hr Hin. destruct (Ht r Hr) as (_ & _ & _ & _ & Hset).
      now apply Hset.
    - rewrite Hres. do 2 f_equal.
      apply (f_equal (@List.length _)) in Hids.
      rewrite !length_map in Hids. now rewrite Hids. }
  intros remote w Hon Hbs Hacc.
  assert (Hlen : List.length (SyncService.getSyncQueueItems w) =
                 List.length (sync_queue w)).
  { unfold SyncService.getSyncQueueItems. rewrite length_map.
    apply Permutation_length, order_by_created_at_perm. }
  assert (Hgoal : exists w',
    SyncService.sync env cfg remote w =
      Some (w', mkResult true (Z.of_nat (List.length (sync_queue w))) 0 []) /\
    sync_queue w' = [] /\
    (forall q r, In q (sync_queue w) -> In r (tasks w') ->
                 row_id r = q_task_id q ->
                 row_sync_status r = synced /\ row_last_synced_at r <> None)).
  { unfold SyncService.sync, SyncService.checkConnectivity.
    rewrite Hon. cbn [negb].
    destruct (List.length (SyncService.getSyncQueueItems w) =? 0)%nat eqn:E.
    - apply Nat.eqb_eq in E. rewrite Hlen in E.
      exists w. rewrite E. split; [reflexivity |].
      apply length_zero_iff_nil in E. rewrite E.
      split; [reflexivity |]. intros q r [].
    - destruct (all_synced_loop env cfg remote w
                  (SyncService.getSyncQueueItems w) Hbs Hacc
                  (List.length (SyncService.getSyncQueueItems w)) 0%nat
                  (w, SyncService.initialResult))
        as ([w' res] & Hrun & Hq & Hr & Hres); [lia | |].
      + split; [| split]; cbn.
        * intros q Hin. split; [exact Hin | intros []].
        * intros r _ [].
        * reflexivity.
      + cbn [fst snd] in *. exists w'.
        rewrite length_map, Hlen in Hres. subst res.
        split; [exact Hrun |]. split.
        * destruct (sync_queue w') as [| q l] eqn:Eq; [reflexivity |].
          destruct (Hq q (or_introl eq_refl)) as [Hin Hnot].
          exfalso. apply Hnot. now apply queued_task_is_drained.
        * intros q r Hin Hrin Hid. apply Hr; [exact Hrin |].
          rewrite Hid. now apply queued_task_is_drained. }
  destruct Hgoal as (w' & Hrun & Hempty & Hsynced).
  exists w'. split; [exact Hrun |]. split; [exact Hempty |].
  split; [unfold SyncService.getPendingSyncCount; now rewrite Hempty |].
  split; [exact Hsynced |].
  intros q t Hq Ht Hid. apply getTasksNeedingSync_row in Ht.
  destruct Ht as (r & Hr & _ & Hs & Heq). subst t. cbn in Hid.
  destruct (Hsynced q r Hq Hr Hid) as [Hsy _]. contradiction.
Qed.

(** Three intents inserted newest first, batches of two, and a separate
    authority that accepts everything. *)
Lemma sync_accepting_remote_drains_queue_witness :
  exists w',
    SyncService.sync Fixture.env0 (mkConfig 2 3) Fixture.acceptingRemote
                     Fixture.shuffledWorld =
      Some (w', mkResult true 3 0 []) /\
    sync_queue w' = [] /\
    map row_sync_status (tasks w') = [synced; synced].
Proof.
  assert (Hacc : accepts_all Fixture.acceptingRemote).
  { intros i batch. eexists. split; [reflexivity |]. split.
    - apply Forall_forall. intros p Hp. apply in_map_iff in Hp.
      destruct Hp as (it & <- & _). reflexivity.
    - rewrite map_map. reflexivity. }
  destruct (proj2 (sync_accepting_remote_drains_queue Fixture.env0
                     (mkConfig 2 3))
              Fixture.acceptingRemote Fixture.shuffledWorld eq_refl
              ltac:(cbn; lia) Hacc)
    as (w' & Hrun & Hempty & _).
  exists w'. split; [exact Hrun |]. split; [exact Hempty |].
  vm_compute in Hrun. injection Hrun as <-. reflexivity.
Defined.

(** ** SyncService: batch sizes *)

Lemma syncLoop_batch_sizes env cfg remote (items : list SyncQueueItem) :
  (0 < batchSize cfg)%nat ->
  forall fuel i st,
    (List.length items - i <= fuel)%nat ->
    exists st' batches,
      SyncService.syncLoop fuel env cfg remote i items st = Some st' /\
      posted (fst st') = posted (fst st) ++ batches /\
      Forall (fun b => List.length b = batchSize cfg) (removelast batches) /\
      (List.length items - i <= List.length batches * batchSize cfg)%nat /\
      (List.length batches * batchSize cfg <
       List.length items - i + batchSize cfg)%nat.
Proof.
  intros Hbs fuel.
  induction fuel as [| fuel IH]; intros i st Hfuel; simpl;
    destruct (i <? List.length items)%nat eqn:E.
  - apply Nat.ltb_lt in E. lia.
  - apply Nat.ltb_ge in E. exists st, []. rewrite app_nil_r. cbn.
    repeat split; auto; lia.
  - apply Nat.ltb_lt in E.
    destruct (IH (i + batchSize cfg)%nat
                 (SyncService.syncBatch env cfg remote i items st))
      as (st' & rest & Hrun & Hposted & Hfull & Hlo & Hhi); [lia |].
    exists st', (SyncService.slice i (i + batchSize cfg) items :: rest).
    split; [exact Hrun |].
    split; [rewrite Hposted, syncBatch_posted, <- app_assoc; reflexivity |].
    destruct rest as [| b rest'].
    + cbn in *. repeat split; [constructor | lia | lia].
    + cbn [List.length] in *. rewrite Nat.mul_succ_l in *.
      set (m := (List.length rest' * batchSize cfg)%nat) in *.
      split; [| split; lia].
      change (removelast (?a :: b :: rest'))
        with (a :: removelast (b :: rest')).
      constructor; [| exact Hfull].
      rewrite slice_window, length_firstn, length_skipn. lia.
  - apply Nat.ltb_ge in E. exists st, []. rewrite app_nil_r. cbn.
    repeat split; auto; lia.
Qed.

(** Property X11.  An online pass with a positive batch size posts
    ceil(N / batchSize) requests for a queue of N intents: every batch but
    the last holds exactly [batchSize] intents, and the number of batches
    times [batchSize] is at least N and less than N + [batchSize].  An empty
    queue posts nothing. *)
Theorem sync_posts_full_batches :
  forall (env : Env) (cfg : Config) (remote : Remote) (w : World),
    reachable remote = true ->
    (0 < batchSize cfg)%nat ->
    exists w' res batches,
      SyncService.sync env cfg remote w = Some (w', res) /\
      posted w' = posted w ++ batches /\
      Forall (fun b => List.length b = batchSize cfg) (removelast batches) /\
      (List.length (sync_queue w) <= List.length batches * batchSize cfg)%nat /\
      (List.length batches * batchSize cfg <
       List.length (sync_queue w) + batchSize cfg)%nat.
Proof.
  intros env cfg remote w Hon Hbs.
  assert (Hlen : List.length (SyncService.getSyncQueueItems w) =
                 List.length (sync_queue w)).
  { unfold SyncService.getSyncQueueItems. rewrite length_map.
    apply Permutation_length, order_by_created_at_perm. }
  unfold SyncService.sync, SyncService.checkConnectivity.
  rewrite Hon. cbn [negb].
  destruct (List.length (SyncService.getSyncQueueItems w) =? 0)%nat eqn:E.
  - apply Nat.eqb_eq in E. rewrite Hlen in E.
    exists w, SyncService.initialResult, []. rewrite app_nil_r, E. cbn.
    repeat split; auto; lia.
  - destruct (syncLoop_batch_sizes env cfg remote
                (SyncService.getSyncQueueItems w) Hbs
                (List.length (SyncService.getSyncQueueItems w)) 0%nat
                (w, SyncService.initialResult))
      as ([w' res] & batches & Hrun & Hposted & Hfull & Hlo & Hhi); [lia |].
    rewrite Nat.sub_0_r, Hlen in Hlo, Hhi.
    exists w', res, batches. auto.
Qed.

(** Three intents in batches of two: one full batch, then the rest. *)
Lemma sync_posts_full_batches_witness :
  exists w' res,
    SyncService.sync Fixture.env0 (mkConfig 2 3) Fixture.acceptingRemote
                     Fixture.twoIntentsWorld = Some (w', res) /\
    map (@List.length _) (posted w') = [2%nat; 1%nat].
Proof.
  destruct (sync_posts_full_batches Fixture.env0 (mkConfig 2 3)
              Fixture.acceptingRemote Fixture.twoIntentsWorld eq_refl
              ltac:(cbn; lia))
    as (w' & res & batches & Hrun & _).
  exists w', res. split; [exact Hrun |].
  vm_compute in Hrun. injection Hrun as <- _. reflexivity.
Defined.

(** ** SyncService: outcomes that do not commit *)

(** Property X12.  A conflict outcome is dropped without a trace when the
    local task is absent or soft-deleted, or when the outcome carries no
    resolved version: the store, the queue, the counters and the error list
    stay as they were, so the intent remains queued and is counted neither as
    synced nor as failed. *)
Theorem conflict_without_local_task_is_ignored :
  forall (env : Env) (cfg : Config) (batch : list SyncQueueItem) (w : World)
         (res : SyncResult) (p : ProcessedItem),
    status p = StConflict ->
    (forall r, In r (tasks w) -> row_id r = client_id p ->
               row_is_deleted r <> 0) \/ resolved_data p = None ->
    SyncService.handleProcessed env cfg batch (w, res) p = (w, res).
Proof.
  intros env cfg batch w res p Hst Hcase.
  unfold SyncService.handleProcessed. rewrite Hst.
  destruct Hcase as [Hhidden | Hnone].
  - now rewrite (getTask_hidden (client_id p) w Hhidden).
  - rewrite Hnone. now destruct (TaskService.getTask (client_id p) w).
Qed.

Lemma conflict_without_local_task_is_ignored_witness :
  SyncService.handleProcessed Fixture.env0 Fixture.cfg0
    [SyncService.rowToItem Fixture.qCreateT1]
    (Fixture.conflictWorld, SyncService.initialResult)
    (mkProcessed "T9" "S9" StConflict (Some Fixture.remoteT1) None)
  = (Fixture.conflictWorld, SyncService.initialResult).
Proof.
  apply conflict_without_local_task_is_ignored; [reflexivity |].
  left. intros r [H | []] Hid. subst r. cbn in Hid. discriminate.
Defined.



(** ** SyncService: status queries *)

Lemma maxLastSynced_spec (rows : list TaskRow) :
  match SyncService.maxLastSynced rows with
  | Some m =>
      (exists r, In r rows /\ row_last_synced_at r = Some m) /\
      (forall r z, In r rows -> row_last_synced_at r = Some z -> z <= m)
  | None => forall r, In r rows -> row_last_synced_at r = None
  end.
Proof.
  induction rows as [| a rows IH]; simpl; [intros r [] |].
  destruct (row_last_synced_at a) as [z |] eqn:Ea;
    destruct (SyncService.maxLastSynced rows) as [m |].
  - destruct IH as [(r & Hr & Hm) Hub]. split.
    + destruct (Z.max_spec z m) as [[_ E] | [_ E]]; rewrite E.
      * exists r. auto.
      * exists a. auto.
    + intros r0 z0 [H0 | H0] Hz0.
      * subst r0. rewrite Ea in Hz0. injection Hz0 as <-. lia.
      * specialize (Hub r0 z0 H0 Hz0). lia.
  - split.
    + exists a. auto.
    + intros r0 z0 [H0 | H0] Hz0.
      * subst r0. rewrite Ea in Hz0. injection Hz0 as <-. lia.
      * rewrite (IH r0 H0) in Hz0. discriminate.
  - destruct IH as [(r & Hr & Hm) Hub]. split.
    + exists r. auto.
    + intros r0 z0 [H0 | H0] Hz0.
      * subst r0. congruence.
      * now apply (Hub r0 z0).
  - intros r0 [H0 | H0]; [now subst r0 | now apply IH].
Qed.

(** Property X14.  [getLastSyncTimestamp] is null exactly when no task row
    has a [last_synced_at]; otherwise it is the [last_synced_at] of some row
    and no row has a later one.  Soft-deleted rows count as well. *)
Theorem getLastSyncTimestamp_is_latest :
  forall w : World,
    (SyncService.getLastSyncTimestamp w = None <->
     forall r, In r (tasks w) -> row_last_synced_at r = None) /\
    (forall d,
        SyncService.getLastSyncTimestamp w = Some d ->
        exists m,
          d = ValidDate m /\
          (exists r, In r (tasks w) /\ row_last_synced_at r = Some m) /\
          (forall r z, In r (tasks w) -> row_last_synced_at r = Some z ->
                       z <= m)).
Proof.
  intros w. unfold SyncService.getLastSyncTimestamp.
  pose proof (maxLastSynced_spec (tasks w)) as H.
  destruct (SyncService.maxLastSynced (tasks w)) as [m |].
  - destruct H as [(r & Hr & Hm) Hub]. split.
    + split; [discriminate |]. intros Hnone.
      rewrite (Hnone r Hr) in Hm. discriminate.
    + intros d E. injection E as <-. exists m. split; [reflexivity |].
      split; [now exists r | exact Hub].
  - split; [now split | discriminate].
Qed.

(** ** The batch endpoint *)

Lemma updateTask_none env taskId u w :
  TaskService.getTask taskId w = None ->
  TaskService.updateTask env taskId u w = (None, w).
Proof. intros H. unfold TaskService.updateTask. now rewrite H. Qed.

Lemma updateTask_some env taskId u w old :
  TaskService.getTask taskId w = Some old ->
  exists t w',
    TaskService.updateTask env taskId u w = (Some t, w') /\
    sync_queue w' =
      sync_queue w ++
      [mkQueueRow (uuid_stream env (uuid_calls w)) taskId "update"
                  (asPartial t) (time_stream env (S (date_calls w))) 0 None] /\
    map row_id (tasks w') = map row_id (tasks w).
Proof.
  intros G.
  destruct (getTask_row taskId w old G) as (r & Hf & _ & _ & _ & Hne & _).
  pose proof (updateTask_found env taskId u w r Hf Hne) as Hup.
  cbv zeta in Hup. rewrite Hup.
  eexists. eexists. split; [reflexivity |]. split; [reflexivity |].
  cbn. rewrite map_map. apply map_ext. intros a.
  now destruct (String.eqb (row_id a) taskId).
Qed.

(** What one intent does at the endpoint: one outcome is appended, and the
    intent is either accepted, which queues one intent more on the
    endpoint's side, or rejected, which writes nothing. *)
Lemma batchItem_cases env w ps item :
  exists p w',
    SyncRouter.batchItem env (w, ps) item = (w', ps ++ [p]) /\
    client_id p = task_id item /\
    ((status p = StSuccess /\
      (operation item = "create" \/
       (operation item = "update" \/ operation item = "delete") /\
       TaskService.getTask (task_id item) w <> None) /\
      List.length (sync_queue w') = S (List.length (sync_queue w))) \/
     (status p = StError /\ w' = w /\
      operation item <> "create" /\
      (pi_error p = Some "Unknown operation" /\
       operation item <> "update" /\ operation item <> "delete" \/
       pi_error p = Some "Task not found" /\
       (operation item = "update" \/ operation item = "delete") /\
       TaskService.getTask (task_id item) w = None))).
Proof.
  unfold SyncRouter.batchItem.
  destruct (String.eqb (operation item) "create") eqn:Ec.
  { apply String.eqb_eq in Ec.
    destruct (TaskService.createTask env (data item) w) as [t w1] eqn:E.
    eexists. exists w1. split; [reflexivity |]. split; [reflexivity |].
    left. split; [reflexivity |]. split; [now left |].
    apply (f_equal snd) in E. cbn [snd] in E. subst w1. cbn.
    rewrite length_app. cbn. lia. }
  apply String.eqb_neq in Ec.
  destruct (String.eqb (operation item) "update") eqn:Eu.
  { apply String.eqb_eq in Eu.
    destruct (TaskService.getTask (task_id item) w) as [old |] eqn:G.
    - destruct (updateTask_some env (task_id item) (data item) w old G)
        as (t & w' & Hup & Hq & _).
      rewrite Hup. eexists. exists w'. split; [reflexivity |].
      split; [reflexivity |]. left. split; [reflexivity |].
      split; [right; split; [now left | discriminate] |].
      rewrite Hq, length_app. cbn. lia.
    - rewrite (updateTask_none env _ (data item) w G).
      eexists. exists w. split; [reflexivity |]. split; [reflexivity |].
      right. split; [reflexivity |]. split; [reflexivity |].
      split; [exact Ec |]. right. split; [reflexivity |]. now split; [left |]. }
  apply String.eqb_neq in Eu.
  destruct (String.eqb (operation item) "delete") eqn:Ed.
  { apply String.eqb_eq in Ed. unfold TaskService.deleteTask.
    destruct (TaskService.getTask (task_id item) w) as [old |] eqn:G.
    - cbn [newDate]. cbv iota beta.
      eexists. eexists. split; [reflexivity |]. split; [reflexivity |].
      left. split; [reflexivity |].
      split; [right; split; [now right | discriminate] |].
      cbn. rewrite length_app. cbn. lia.
    - eexists. exists w. split; [reflexivity |]. split; [reflexivity |].
      right. split; [reflexivity |]. split; [reflexivity |].
      split; [exact Ec |]. right. split; [reflexivity |]. now split; [right |]. }
  apply String.eqb_neq in Ed.
  eexists. exists w. split; [reflexivity |]. split; [reflexivity |].
  right. split; [reflexivity |]. split; [reflexivity |].
  split; [exact Ec |]. left. now repeat split.
Qed.

Lemma postBatch_fold env (items : list SyncQueueItem) :
  forall w acc,
    let r := fold_left (SyncRouter.batchItem env) items (w, acc) in
    map client_id (snd r) = map client_id acc ++ map task_id items /\
    (Forall (fun p => status p <> StConflict) acc ->
     Forall (fun p => status p <> StConflict) (snd r)) /\
    (List.length (sync_queue (fst r)) + List.length (filter isSuccess acc) =
     List.length (sync_queue w) + List.length (filter isSuccess (snd r)))%nat.
Proof.
  induction items as [| item items IH]; intros w acc; cbn [fold_left].
  - cbn. rewrite app_nil_r. auto.
  - destruct (batchItem_cases env w acc item)
      as (p & w' & Hstep & Hid & Hcase).
    rewrite Hstep. cbv zeta.
    destruct (IH w' (acc ++ [p])) as (Hids & Hconf & Hlen).
    cbv zeta in Hids, Hconf, Hlen.
    split; [| split].
    + rewrite Hids, map_app, <- app_assoc. cbn. now rewrite Hid.
    + intros Hacc. apply Hconf. apply Forall_app. split; [exact Hacc |].
      constructor; [| constructor].
      destruct Hcase as [[Hs _] | [Hs _]]; rewrite Hs; discriminate.
    + rewrite filter_app, length_app in Hlen. cbn in Hlen.
      unfold isSuccess at 2 in Hlen.
      destruct Hcase as [(Hs & _ & Hq) | (Hs & Hw & _)]; rewrite Hs in Hlen;
        cbn in Hlen.
      * lia.
      * subst w'. lia.
Qed.

(** Property X15.  The batch endpoint answers with exactly one outcome per
    intent, in request order, each carrying the intent's [task_id] as
    [client_id]; none of the outcomes is a conflict. *)
Theorem postBatch_one_outcome_per_intent :
  forall (env : Env) (items : list SyncQueueItem) (w : World),
    map client_id (snd (SyncRouter.postBatch env items w)) =
      map task_id items /\
    Forall (fun p => status p <> StConflict)
           (snd (SyncRouter.postBatch env items w)).
Proof.
  intros env items w. unfold SyncRouter.postBatch.
  destruct (postBatch_fold env items w []) as (Hids & Hconf & _).
  cbv zeta in Hids, Hconf. split; [exact Hids |].
  apply Hconf. constructor.
Qed.

(** Property X16.  At the batch endpoint an intent is accepted exactly when
    its operation is create, or is update or delete and its task is visible
    to [getTask]; any other intent gets an error outcome (unknown operation,
    or task not found) and leaves the world as it was. *)
Theorem batch_intent_accepted_iff :
  forall (env : Env) (w : World) (ps : list ProcessedItem)
         (item : SyncQueueItem),
    exists p,
      snd (SyncRouter.batchItem env (w, ps) item) = ps ++ [p] /\
      (status p = StSuccess <->
       operation item = "create" \/
       (operation item = "update" \/ operation item = "delete") /\
       TaskService.getTask (task_id item) w <> None) /\
      (status p <> StSuccess ->
       status p = StError /\
       fst (SyncRouter.batchItem env (w, ps) item) = w /\
       (pi_error p = Some "Unknown operation" \/
        pi_error p = Some "Task not found")).
Proof.
  intros env w ps item.
  destruct (batchItem_cases env w ps item) as (p & w' & Hstep & _ & Hcase).
  exists p. rewrite Hstep. cbn [fst snd]. split; [reflexivity |].
  destruct Hcase as [(Hs & Hacc & _) | (Hs & Hw & Hnc & Hwhy)].
  - split; [now split |]. intros Hn. contradiction.
  - split.
    + split; [rewrite Hs; discriminate |].
      intros [Hc | [Hop Hvis]]; [contradiction |].
      destruct Hwhy as [(_ & Hnu & Hnd) | (_ & _ & Hnone)].
      * destruct Hop; contradiction.
      * contradiction.
    + intros _. split; [exact Hs |]. split; [exact Hw |].
      destruct Hwhy as [(He & _) | (He & _)]; auto.
Qed.

(** Property X17.  Every intent the batch endpoint accepts is applied
    through the task service and therefore queued again on the endpoint's
    side: after a batch the endpoint's sync queue has grown by exactly the
    number of success outcomes. *)
Theorem postBatch_requeues_accepted_intents :
  forall (env : Env) (items : list SyncQueueItem) (w : World),
    List.length (sync_queue (fst (SyncRouter.postBatch env items w))) =
    (List.length (sync_queue w) +
     List.length (filter isSuccess (snd (SyncRouter.postBatch env items w))))%nat.
Proof.
  intros env items w. unfold SyncRouter.postBatch.
  destruct (postBatch_fold env items w []) as (_ & _ & Hlen).
  cbv zeta in Hlen. cbn in Hlen. lia.
Qed.

(** ** The task router *)

Lemma sendError_frame env code text path w :
  statusCode (fst (TaskRouter.sendError env code text path w)) = code /\
  tasks (snd (TaskRouter.sendError env code text path w)) = tasks w /\
  sync_queue (snd (TaskRouter.sendError env code text path w)) = sync_queue w /\
  exists ts,
    body (fst (TaskRouter.sendError env code text path w)) =
    ErrorBody text ts path.
Proof. cbn. repeat split. now eexists. Qed.

Lemma getTask_same_tasks taskId w w' :
  tasks w' = tasks w ->
  TaskService.getTask taskId w' = TaskService.getTask taskId w.
Proof. intros H. unfold TaskService.getTask. now rewrite H. Qed.

Lemma getTask_after_deleteTask env taskId w :
  TaskService.getTask taskId (snd (TaskService.deleteTask env taskId w)) = None.
Proof.
  destruct (TaskService.getTask taskId w) as [old |] eqn:G.
  - apply getTask_hidden. intros r Hr Hid.
    destruct (deleteTask_hides env taskId w r Hr Hid) as [Hd | Hd];
      [exact Hd | congruence].
  - unfold TaskService.deleteTask. now rewrite G.
Qed.

(** Property X18.  [POST /] answers 201, 400 or 500.  It answers 201 only
    when the title is a string whose trimmed form is not empty, and the task
    it then returns is pending and titled with that trimmed form; every other
    answer is an error body for the request path and comes with no write to
    the task table or the sync queue. *)
Theorem createHandler_requires_title :
  forall (trim : string -> string) (env : Env) (ttl desc : JsValue)
         (path : string) (w : World),
    let r := TaskRouter.createHandler trim env ttl desc path w in
    (statusCode (fst r) = 201 \/ statusCode (fst r) = 400 \/
     statusCode (fst r) = 500) /\
    (statusCode (fst r) = 201 ->
     exists s t,
       ttl = JsString s /\ body (fst r) = TaskBody t /\
       title t = trim s /\ title t <> "" /\ sync_status t = pending /\
       List.length (tasks (snd r)) = S (List.length (tasks w)) /\
       List.length (sync_queue (snd r)) = S (List.length (sync_queue w))) /\
    (statusCode (fst r) <> 201 ->
     tasks (snd r) = tasks w /\ sync_queue (snd r) = sync_queue w /\
     exists text ts, body (fst r) = ErrorBody text ts path).
Proof.
  intros trim env ttl desc path w r. subst r.
  set (post := fun r : Response * World =>
    (statusCode (fst r) = 201 \/ statusCode (fst r) = 400 \/
     statusCode (fst r) = 500) /\
    (statusCode (fst r) = 201 ->
     exists s t,
       ttl = JsString s /\ body (fst r) = TaskBody t /\
       title t = trim s /\ title t <> "" /\ sync_status t = pending /\
       List.length (tasks (snd r)) = S (List.length (tasks w)) /\
       List.length (sync_queue (snd r)) = S (List.length (sync_queue w))) /\
    (statusCode (fst r) <> 201 ->
     tasks (snd r) = tasks w /\ sync_queue (snd r) = sync_queue w /\
     exists text ts, body (fst r) = ErrorBody text ts path)).
  change (post (TaskRouter.createHandler trim env ttl desc path w)).
  assert (Herr : forall code text,
            code = 400 \/ code = 500 ->
            post (TaskRouter.sendError env code text path w)).
  { intros code text Hcode. unfold post. cbn.
    split; [destruct Hcode; auto |].
    split; [intros E; destruct Hcode; congruence |].
    intros _. repeat split. now do 2 eexists. }
  assert (Hok : forall s d,
            ttl = JsString s -> String.eqb (trim s) "" = false ->
            post (let '(task, w1) :=
                    TaskService.createTask env
                      (mkPartial None (Some (trim s)) (Some d) None None None
                                 None None None None) w in
                  (mkResponse 201 (TaskBody task), w1))).
  { intros s d Hs Htrim. unfold post. cbn.
    split; [now left |]. split; [| intros E; now contradiction E].
    intros _. exists s. eexists. split; [exact Hs |].
    split; [reflexivity |]. cbn.
    pose proof (orElse_empty (trim s)) as Ho. cbn in Ho. rewrite Ho.
    apply String.eqb_neq in Htrim.
    repeat split; auto; rewrite length_app; cbn; lia. }
  clearbody post.
  unfold TaskRouter.createHandler.
  destruct ttl as [| | b | s | o]; try (apply Herr; now left).
  destruct (negb (truthy s) || String.eqb (trim s) "") eqn:E;
    [apply Herr; now left |].
  apply orb_false_iff in E. destruct E as [_ Htrim].
  destruct (TaskRouter.js_truthy desc).
  - destruct desc as [| | b | d | o]; try (apply Herr; now right).
    now apply Hok.
  - now apply Hok.
Qed.

Lemma updateTask_outcome env taskId u w :
  (exists r,
      In r (tasks w) /\ row_id r = taskId /\
      fst (TaskService.updateTask env taskId u w) =
        Some (TaskService.mapRowToTask
                (TaskService.applyUpdates u (time_stream env (date_calls w)) r)))
  \/
  TaskService.updateTask env taskId u w = (None, w).
Proof.
  destruct (TaskService.getTask taskId w) as [old |] eqn:G.
  - left. destruct (getTask_row taskId w old G)
      as (r & Hf & Hin & Hid & _ & Hne & _).
    exists r. split; [exact Hin |]. split; [exact Hid |].
    pose proof (updateTask_found env taskId u w r Hf Hne) as Hup.
    cbv zeta in Hup. now rewrite Hup.
  - right. now apply updateTask_none.
Qed.

(** Property X19.  [PUT /:id] answers 200, 400, 404 or 500.  It answers 200
    only for a task that was visible, and the task it returns carries the
    requested id, the trimmed title when one was sent (never an empty one)
    and the completed flag when one was sent.  Every other answer comes with
    no write to the task table or the sync queue. *)
Theorem updateHandler_validates_fields :
  forall (trim : string -> string) (env : Env) (taskId : string)
         (ttl desc comp : JsValue) (path : string) (w : World),
    let r := TaskRouter.updateHandler trim env taskId ttl desc comp path w in
    (statusCode (fst r) = 200 \/ statusCode (fst r) = 400 \/
     statusCode (fst r) = 404 \/ statusCode (fst r) = 500) /\
    (statusCode (fst r) = 200 ->
     exists t,
       body (fst r) = TaskBody t /\ id t = taskId /\
       TaskService.getTask taskId w <> None /\
       (forall s, ttl = JsString s -> title t = trim s /\ title t <> "") /\
       (forall b, comp = JsBool b -> completed t = b) /\
       (ttl <> JsUndefined \/ desc <> JsUndefined \/ comp <> JsUndefined)) /\
    (statusCode (fst r) <> 200 ->
     tasks (snd r) = tasks w /\ sync_queue (snd r) = sync_queue w).
Proof.
  intros trim env taskId ttl desc comp path w r. subst r.
  unfold TaskRouter.updateHandler.
  destruct (TaskRouter.validateUpdate trim ttl desc comp) as [text |] eqn:V.
  { cbn. split; [auto |]. split; [discriminate | now split]. }
  destruct (TaskRouter.buildUpdates trim ttl desc comp) as [u |] eqn:B.
  2:{ cbn. split; [auto |]. split; [discriminate | now split]. }
  destruct (updateTask_outcome env taskId u w) as [(r & Hin & Hid & Hup) | Hup].
  2:{ rewrite Hup. cbn. split; [auto 6 |]. split; [discriminate | now split]. }
  destruct (TaskService.updateTask env taskId u w) as [[t |] w1] eqn:E;
    cbn [fst] in Hup; [| discriminate].
  injection Hup as ->. cbn [fst snd statusCode body].
  split; [now left |]. split; [| intros Hn; now contradiction Hn].
  intros _. eexists. split; [reflexivity |].
  split; [exact Hid |].
  split.
  { intros G. rewrite (updateTask_none env taskId u w G) in E. discriminate. }
  unfold TaskRouter.validateUpdate in V. unfold TaskRouter.buildUpdates in B.
  split; [| split].
  - intros s ->. cbn in V.
    destruct (String.eqb (trim s) "") eqn:Es;
      [destruct (TaskRouter.isUndefined desc && TaskRouter.isUndefined comp);
       discriminate |].
    apply String.eqb_neq in Es.
    assert (Hu : p_title u = Some (trim s))
      by (destruct desc; try discriminate; now injection B as <-).
    cbn. rewrite Hu. now split.
  - intros b ->.
    assert (Hu : p_completed u = Some b)
      by (destruct desc; try discriminate; now injection B as <-).
    cbn. rewrite Hu. now destruct b.
  - destruct ttl; try (left; discriminate).
    destruct desc; try (right; left; discriminate).
    destruct comp; right; right; discriminate.
Qed.

(** Property X20.  [DELETE /:id] answers 204 exactly when the task was
    visible to [getTask], and 404 otherwise.  Whatever it answered, the task
    is hidden afterwards: a following [GET /:id] and a second [DELETE /:id]
    both answer 404. *)
Theorem deleteHandler_then_not_found :
  forall (env : Env) (taskId path : string) (w : World),
    let r := TaskRouter.deleteHandler env taskId path w in
    (statusCode (fst r) = 204 \/ statusCode (fst r) = 404) /\
    (statusCode (fst r) = 204 <-> TaskService.getTask taskId w <> None) /\
    (forall path',
        statusCode (fst (TaskRouter.getHandler env taskId path' (snd r))) = 404 /\
        statusCode (fst (TaskRouter.deleteHandler env taskId path' (snd r)))
          = 404).
Proof.
  intros env taskId path w r.
  assert (Hgone : TaskService.getTask taskId (snd r) = None).
  { subst r. unfold TaskRouter.deleteHandler.
    pose proof (getTask_after_deleteTask env taskId w) as H.
    destruct (TaskService.deleteTask env taskId w) as [[|] w1];
      cbn [snd] in *; [exact H |].
    rewrite <- H. now apply getTask_same_tasks. }
  split; [| split].
  - subst r. unfold TaskRouter.deleteHandler.
    destruct (TaskService.deleteTask env taskId w) as [[|] w1]; cbn; auto.
  - subst r. unfold TaskRouter.deleteHandler, TaskService.deleteTask.
    destruct (TaskService.getTask taskId w) as [old |]; cbn.
    + split; [discriminate | reflexivity].
    + split; [discriminate | intros H; now contradiction H].
  - intros path'. clearbody r.
    unfold TaskRouter.getHandler, TaskRouter.deleteHandler,
      TaskService.deleteTask.
    rewrite Hgone. cbn. now split.
Qed.

(** ** SyncService: a pass in which every request fails *)

Lemma queue_row_by_id (l : list QueueRow) (a b : QueueRow) :
  NoDup (map q_id l) -> In a l -> In b l -> q_id a = q_id b -> a = b.
Proof.
  induction l as [| h t IH]; intros Hnd Ha Hb E; [destruct Ha |].
  cbn in Hnd. apply NoDup_cons_iff in Hnd. destruct Hnd as [Hh Ht].
  destruct Ha as [Ha | Ha], Hb as [Hb | Hb].
  - congruence.
  - subst h. exfalso. apply Hh. rewrite E. now apply in_map.
  - subst h. exfalso. apply Hh. rewrite <- E. now apply in_map.
  - now apply IH.
Qed.

Lemma handleSyncError_tasks cfg item msg w :
  tasks (SyncService.handleSyncError cfg item msg w) =
  map (fun r => if String.eqb (row_id r) (task_id item) &&
                   (maxRetries cfg <=? retry_count item + 1)
                then SyncService.setSyncStatusError r else r)
      (tasks w).
Proof.
  unfold SyncService.handleSyncError.
  destruct (maxRetries cfg <=? retry_count item + 1); cbn.
  - apply map_ext. intros r. now rewrite andb_true_r.
  - rewrite <- (map_id (tasks w)) at 1. apply map_ext. intros r.
    now rewrite andb_false_r.
Qed.

Lemma failures_recorded_step cfg msg env w0 done w res it :
  NoDup (map q_id (sync_queue w0)) ->
  (exists q0, In q0 (sync_queue w0) /\ it = SyncService.rowToItem q0) ->
  ~ In (item_id it) (map item_id done) ->
  failures_recorded cfg msg w0 done w ->
  failures_recorded cfg msg w0 (done ++ [it])
    (fst (SyncService.failItem env cfg msg (w, res) it)).
Proof.
  intros Hnd (q0 & Hq0 & Hit) Hfresh (Hq & Ht).
  cbn [SyncService.failItem fst snd newDate]. unfold failures_recorded.
  cbn [sync_queue tasks].
  split.
  - rewrite handleSyncError_queue, Hq, map_map.
    apply map_ext_in. intros q Hin. unfold bumped.
    rewrite existsb_app. cbn [existsb]. rewrite orb_false_r.
    destruct (existsb (fun i => String.eqb (q_id q) (item_id i)) done) eqn:Ex.
    + apply existsb_exists in Ex. destruct Ex as (i & Hi & Eid).
      apply String.eqb_eq in Eid. cbn.
      destruct (String.eqb (q_id q) (item_id it)) eqn:Eq; [| reflexivity].
      apply String.eqb_eq in Eq. exfalso. apply Hfresh.
      rewrite <- Eq, Eid. now apply in_map.
    + cbn. destruct (String.eqb (q_id q) (item_id it)) eqn:Eq; [| reflexivity].
      apply String.eqb_eq in Eq.
      assert (q0 = q).
      { apply (queue_row_by_id (sync_queue w0)); auto.
        rewrite Eq, Hit. reflexivity. }
      subst q0 it. reflexivity.
  - rewrite handleSyncError_tasks, Ht, map_map.
    apply map_ext. intros r. unfold flagged.
    rewrite existsb_app. cbn [existsb]. rewrite orb_false_r.
    destruct (existsb _ done); cbn;
      destruct (String.eqb (row_id r) (task_id it) &&
                (maxRetries cfg <=? retry_count it + 1)); reflexivity.
Qed.

Lemma failures_recorded_fold cfg msg env w0 (l : list SyncQueueItem) :
  NoDup (map q_id (sync_queue w0)) ->
  (forall it, In it l ->
     exists q0, In q0 (sync_queue w0) /\ it = SyncService.rowToItem q0) ->
  forall done st,
    NoDup (map item_id (done ++ l)) ->
    failures_recorded cfg msg w0 done (fst st) ->
    failures_recorded cfg msg w0 (done ++ l)
      (fst (fold_left (SyncService.failItem env cfg msg) l st)).
Proof.
  intros Hnd. induction l as [| it l IH]; intros Hrows done st Hids Hst.
  - now rewrite app_nil_r.
  - cbn [fold_left].
    replace (done ++ it :: l) with ((done ++ [it]) ++ l) in *
      by (now rewrite <- app_assoc).
    apply IH; [intros i Hi; apply Hrows; now right | exact Hids |].
    destruct st as [w res]. apply failures_recorded_step; auto.
    + apply Hrows. now left.
    + rewrite <- app_assoc, map_app in Hids. cbn in Hids.
      apply NoDup_remove_2 in Hids. intros Hin. apply Hids.
      apply in_or_app. now left.
Qed.

Lemma drained_item_row (w : World) (it : SyncQueueItem) :
  In it (SyncService.getSyncQueueItems w) <->
  exists q, In q (sync_queue w) /\ it = SyncService.rowToItem q.
Proof.
  unfold SyncService.getSyncQueueItems. rewrite in_map_iff. split.
  - intros (q & E & Hq). exists q. split; [| now symmetry].
    apply (Permutation_in _ (order_by_created_at_perm _) Hq).
  - intros (q & Hq & E). exists q. split; [now symmetry |].
    apply (Permutation_in _ (Permutation_sym (order_by_created_at_perm _)) Hq).
Qed.

Lemma drained_ids_nodup (w : World) :
  NoDup (map q_id (sync_queue w)) ->
  NoDup (map item_id (SyncService.getSyncQueueItems w)).
Proof.
  intros Hnd. unfold SyncService.getSyncQueueItems. rewrite map_map.
  change (fun x => item_id (SyncService.rowToItem x)) with q_id.
  apply (Permutation_NoDup
           (Permutation_map q_id
              (Permutation_sym (order_by_created_at_perm (sync_queue w))))).
  exact Hnd.
Qed.

Lemma in_firstn {A : Type} (n : nat) (l : list A) (x : A) :
  In x (firstn n l) -> In x l.
Proof.
  intros H. rewrite <- (firstn_skipn n l). apply in_or_app. now left.
Qed.

Lemma in_skipn {A : Type} (n : nat) (l : list A) (x : A) :
  In x (skipn n l) -> In x l.
Proof.
  intros H. rewrite <- (firstn_skipn n l). apply in_or_app. now right.
Qed.

Lemma nodup_firstn {A : Type} (n : nat) (l : list A) :
  NoDup l -> NoDup (firstn n l).
Proof.
  revert l. induction n as [| n IH]; intros l H; [constructor |].
  destruct l as [| a l]; [constructor |]. cbn.
  apply NoDup_cons_iff in H. destruct H as [Ha Hl].
  constructor; [| now apply IH].
  intros Hin. apply Ha. now apply in_firstn in Hin.
Qed.

Lemma all_failed_batch cfg msg env remote w0 i st :
  NoDup (map q_id (sync_queue w0)) ->
  (forall j b, post_batch remote j b = inl msg) ->
  all_failed cfg msg w0 (firstn i (SyncService.getSyncQueueItems w0)) st ->
  all_failed cfg msg w0
    (firstn (i + batchSize cfg) (SyncService.getSyncQueueItems w0))
    (SyncService.syncBatch env cfg remote i
       (SyncService.getSyncQueueItems w0) st).
Proof.
  intros Hnd Hfail (Hrec & Hsy & Hfa & Her). destruct st as [w res].
  cbn [fst snd] in *.
  unfold SyncService.syncBatch, SyncService.processBatch.
  cbn -[SyncService.slice]. rewrite Hfail.
  set (items := SyncService.getSyncQueueItems w0) in *.
  rewrite firstn_plus, <- slice_window.
  set (batch := SyncService.slice i (i + batchSize cfg) items).
  assert (Hsub : forall it, In it batch -> In it items).
  { intros it Hin. unfold batch in Hin. rewrite slice_window in Hin.
    apply in_firstn, in_skipn in Hin. exact Hin. }
  match goal with
  | |- all_failed _ _ _ _ (fold_left _ _ (?w1, ?r1)) =>
      destruct (failItem_fold_result env cfg msg batch w1 r1)
        as (_ & Hy & Hf & es & He & Hm);
      pose proof (failures_recorded_fold cfg msg env w0 batch Hnd
                    (fun it Hin => proj1 (drained_item_row w0 it)
                                     (Hsub it Hin))
                    (firstn i items) (w1, r1)) as Hfold
  end.
  cbv zeta in Hy, Hf, He. cbn [fst snd] in Hfold.
  split; [| split; [| split]].
  - apply Hfold; [| exact Hrec].
    unfold batch. rewrite slice_window, <- firstn_plus, <- firstn_map.
    apply nodup_firstn. now apply drained_ids_nodup.
  - rewrite Hy. exact Hsy.
  - rewrite Hf. cbn. rewrite Hfa, length_app. lia.
  - rewrite He. unfold SyncService.add_failed, SyncService.set_success.
    cbn [errors]. rewrite !map_app, Hm, Her. reflexivity.
Qed.

Lemma all_failed_loop cfg msg env remote w0 :
  (0 < batchSize cfg)%nat ->
  NoDup (map q_id (sync_queue w0)) ->
  (forall j b, post_batch remote j b = inl msg) ->
  forall fuel i st,
    (List.length (SyncService.getSyncQueueItems w0) - i <= fuel)%nat ->
    all_failed cfg msg w0 (firstn i (SyncService.getSyncQueueItems w0)) st ->
    exists st',
      SyncService.syncLoop fuel env cfg remote i
        (SyncService.getSyncQueueItems w0) st = Some st' /\
      all_failed cfg msg w0 (SyncService.getSyncQueueItems w0) st'.
Proof.
  intros Hbs Hnd Hfail fuel.
  induction fuel as [| fuel IH]; intros i st Hfuel Hst; simpl;
    destruct (i <? List.length (SyncService.getSyncQueueItems w0))%nat eqn:E.
  - apply Nat.ltb_lt in E. lia.
  - apply Nat.ltb_ge in E. exists st. split; [reflexivity |].
    now rewrite firstn_all2 in Hst.
  - apply Nat.ltb_lt in E. apply IH; [lia |].
    now apply all_failed_batch.
  - apply Nat.ltb_ge in E. exists st. split; [reflexivity |].
    now rewrite firstn_all2 in Hst.
Qed.

(** Property X21.  When the remote is reachable but every batch request
    throws, a pass with a positive batch size over a queue with distinct
    intent ids keeps every intent queued, in place, with its [retry_count]
    raised by exactly one and the exception's message stored; it counts every
    intent as failed, reports one entry per intent and syncs nothing.  A task
    is flagged [error] as soon as one of its intents thereby reaches
    [maxRetries]; the rows of tasks whose intents all stay below it are left
    as they were. *)
Theorem failing_pass_records_every_intent :
  forall (env : Env) (cfg : Config) (remote : Remote) (msg : string)
         (w : World),
    reachable remote = true ->
    (forall i batch, post_batch remote i batch = inl msg) ->
    (0 < batchSize cfg)%nat ->
    NoDup (map q_id (sync_queue w)) ->
    exists w' res,
      SyncService.sync env cfg remote w = Some (w', res) /\
      sync_queue w' =
        map (fun q => mkQueueRow (q_id q) (q_task_id q) (q_operation q)
                                 (q_data q) (q_created_at q)
                                 (q_retry_count q + 1) (Some msg))
            (sync_queue w) /\
      synced_items res = 0 /\
      failed_items res = Z.of_nat (List.length (sync_queue w)) /\
      List.length (errors res) = List.length (sync_queue w) /\
      (forall q r, In q (sync_queue w) ->
                   maxRetries cfg <= q_retry_count q + 1 ->
                   In r (tasks w') -> row_id r = q_task_id q ->
                   row_sync_status r = error) /\
      (forall r, In r (tasks w) ->
                 (forall q, In q (sync_queue w) -> q_task_id q = row_id r ->
                            q_retry_count q + 1 < maxRetries cfg) ->
                 In r (tasks w')).
Proof.
  intros env cfg remote msg w Hon Hfail Hbs Hnd.
  set (items := SyncService.getSyncQueueItems w).
  assert (Hlen : List.length items = List.length (sync_queue w)).
  { unfold items, SyncService.getSyncQueueItems. rewrite length_map.
    apply Permutation_length, order_by_created_at_perm. }
  assert (Hrun : exists st',
            SyncService.sync env cfg remote w = Some st' /\
            all_failed cfg msg w items st').
  { unfold SyncService.sync, SyncService.checkConnectivity.
    rewrite Hon. cbn [negb]. fold items.
    assert (Hinit : all_failed cfg msg w (firstn 0 items)
                      (w, SyncService.initialResult)).
    { cbn. repeat split; cbn.
      - rewrite <- (map_id (sync_queue w)) at 1. now apply map_ext.
      - rewrite <- (map_id (tasks w)) at 1. now apply map_ext. }
    destruct (List.length items =? 0)%nat eqn:E.
    - apply Nat.eqb_eq, length_zero_iff_nil in E.
      exists (w, SyncService.initialResult). split; [reflexivity |].
      now rewrite E in *.
    - apply (all_failed_loop cfg msg env remote w Hbs Hnd Hfail
               (List.length items) 0%nat (w, SyncService.initialResult));
        [fold items; lia | exact Hinit]. }
  destruct Hrun as ([w' res] & Hrun & (Hq & Ht) & Hsy & Hfa & Her).
  cbn [fst snd] in *.
  exists w', res. split; [exact Hrun |].
  split.
  { rewrite Hq. apply map_ext_in. intros q Hin. unfold bumped.
    replace (existsb (fun it => String.eqb (q_id q) (item_id it)) items)
      with true; [reflexivity |].
    symmetry. apply existsb_exists. exists (SyncService.rowToItem q).
    split; [apply drained_item_row; now exists q |].
    cbn. apply String.eqb_refl. }
  split; [exact Hsy |].
  split; [now rewrite Hfa, Hlen |].
  split.
  { apply (f_equal (@List.length _)) in Her.
    rewrite !length_map in Her. now rewrite Her. }
  split.
  - intros q r Hin Hceil Hr Hid. rewrite Ht in Hr.
    apply in_map_iff in Hr. destruct Hr as (r0 & <- & _).
    unfold flagged.
    replace (existsb _ items) with true; [reflexivity |].
    symmetry. apply existsb_exists. exists (SyncService.rowToItem q).
    split; [apply drained_item_row; now exists q |].
    cbn. apply andb_true_iff. split; [| now apply Z.leb_le].
    apply String.eqb_eq. rewrite <- Hid. unfold flagged.
    now destruct (existsb _ items).
  - intros r Hin Hbelow. rewrite Ht. apply in_map_iff. exists r.
    split; [| exact Hin]. unfold flagged.
    destruct (existsb _ items) eqn:Ex; [| reflexivity].
    apply existsb_exists in Ex. destruct Ex as (it & Hit & Hc).
    apply drained_item_row in Hit. destruct Hit as (q & Hqin & ->).
    cbn in Hc. apply andb_true_iff in Hc. destruct Hc as [Hid Hceil].
    apply String.eqb_eq in Hid. apply Z.leb_le in Hceil.
    specialize (Hbelow q Hqin (eq_sym Hid)). lia.
Qed.

(** Two earlier failures on the create intent of T2, then a pass in which
    every request times out: T2 reaches the ceiling of 3 and is flagged. *)
Lemma failing_pass_records_every_intent_witness :
  let w := mkWorld [Fixture.rowT1; Fixture.rowT2]
             [Fixture.qCreateT1;
              mkQueueRow "q3" "T2" "create" (Fixture.titleOnly "C") 110 2 None]
             0 0 [] in
  exists w' res,
    SyncService.sync Fixture.env0 Fixture.cfg0
      (mkRemote true (fun _ _ => inl "timeout")) w = Some (w', res) /\
    map (fun q => (q_id q, q_retry_count q)) (sync_queue w') =
      [("q1", 1); ("q3", 3)] /\
    map (fun r => (row_id r, row_sync_status r)) (tasks w') =
      [("T1", pending); ("T2", error)].
Proof.
  cbv zeta.
  assert (Hnd : NoDup (map q_id
            [Fixture.qCreateT1;
             mkQueueRow "q3" "T2" "create" (Fixture.titleOnly "C") 110 2 None])).
  { cbn. constructor; [intros [H | []]; discriminate |].
    constructor; [intros [] | constructor]. }
  destruct (failing_pass_records_every_intent Fixture.env0 Fixture.cfg0
              (mkRemote true (fun _ _ => inl "timeout")) "timeout"
              (mkWorld [Fixture.rowT1; Fixture.rowT2]
                 [Fixture.qCreateT1;
                  mkQueueRow "q3" "T2" "create" (Fixture.titleOnly "C") 110 2
                             None] 0 0 [])
              eq_refl (fun _ _ => eq_refl) ltac:(cbn; lia) Hnd)
    as (w' & res & Hrun & Hq & _).
  exists w', res. split; [exact Hrun |].
  split; [rewrite Hq; reflexivity |].
  vm_compute in Hrun. injection Hrun as <- _. reflexivity.
Defined.
